(** * aws_utils: helpers reading and writing files and pickled objects on S3

    A shallow embedding of [utils.py].  The module talks to three outside
    parties: the S3 object store (through boto3 and s3fs), the [pickle]
    serializer, and the dataframe libraries (pandas, fastparquet).  Each of
    them is an interface here (a type class), so that the functions of
    [utils.py] are written once, statement by statement, over any store and
    any serializer; a concrete store (a finite map from (bucket, key) to
    bytes, with a log of the requests it served) and a concrete fragment of
    the pickle format instantiate the interfaces. *)

From Stdlib Require Import ZArith String Ascii List Bool.
From Stdlib Require Import Strings.Byte.
From stdpp Require Import gmap strings list.

Open Scope string_scope.

(** ** Python exceptions *)

(** The exceptions that can travel through the functions of [utils.py].
    [ClientError] is botocore's, carrying the error code of the response
    (["NoSuchKey"], ["AccessDenied"], ["NoSuchBucket"], ...). *)
Inductive exn : Type :=
| AssertionError
| PicklingError
| UnpicklingError
| ClientError (code : string)
| EndpointConnectionError
| ValueError (msg : string)
| FileNotFoundError (path : string)
| AttributeError (name : string).

Definition NoSuchKey : exn := ClientError "NoSuchKey".
Definition AccessDenied : exn := ClientError "AccessDenied".

(** ** Computations: state of the outside world, and exceptions *)

(** A Python call runs against a world [W] and either returns or raises; the
    world it leaves behind is kept in both cases (what was written before the
    exception stays written). *)
Definition M (W A : Type) : Type := W -> (exn + A) * W.

Definition ret {W A} (a : A) : M W A := fun w => (inr a, w).
Definition raise {W A} (e : exn) : M W A := fun w => (inl e, w).
Definition bind {W A B} (m : M W A) (f : A -> M W B) : M W B :=
  fun w => match m w with
           | (inr a, w') => f a w'
           | (inl e, w') => (inl e, w')
           end.
(** A pure library call that may raise. *)
Definition lift {W A} (r : exn + A) : M W A := fun w => (r, w).
(** [assert b] *)
Definition py_assert {W} (b : bool) : M W unit :=
  if b then ret tt else raise AssertionError.

Declare Scope py_scope.
Delimit Scope py_scope with py.
Notation "x <- m ;; k" := (bind m (fun x => k))
  (at level 100, m at next level, right associativity) : py_scope.
Notation "m ;;; k" := (bind m (fun _ => k))
  (at level 100, right associativity) : py_scope.
Open Scope py_scope.

Abbreviation bytes := (list byte).

(** ** The object store, as boto3 shows it *)

(** The two request kinds the module issues. *)
Inductive request : Type :=
| PutObject (bucket key : string) (body : bytes)
| GetObject (bucket key : string).

(** What [s3_resource.Object(bucket, key)] evaluates to: a handle. *)
Record s3_Object : Type := { bucket_name : string; key : string }.

(** The store seen through the client library: [boto3.resource('s3')] and
    [boto3.client('s3')], building an object handle from the resource,
    [Object.put(Body=...)], and [get] followed by reading the body (also
    [client.get_object(...)['Body'].read()]).  Any of them may raise and may
    change the world. *)
Class ObjectStore (W : Type) : Type := {
  boto3_resource : string -> M W unit;
  boto3_client : string -> M W unit;
  resource_Object : string -> string -> M W s3_Object;
  Object_put : s3_Object -> bytes -> M W unit;
  Object_get_Body_read : s3_Object -> M W bytes;
  client_get_object_Body_read : string -> string -> M W bytes
}.

(** [print(...)], the text of one call. *)
Class Console (W : Type) : Type := {
  print : string -> M W unit
}.

(** ** The serializer *)

(** [pk.dump(model, io_buffer)] followed by [io_buffer.getvalue()] on a fresh
    buffer, and [pk.loads]. *)
Class Pickle (Obj : Type) : Type := {
  pk_dump : Obj -> exn + bytes;
  pk_loads : bytes -> exn + Obj
}.

(** An object the serializer can write and read back as itself. *)
Definition serializable {Obj} `{Pickle Obj} (o : Obj) : Prop :=
  exists bs, pk_dump o = inr bs /\ pk_loads bs = inr o.

(** ** class PickleS3 *)

Module PickleS3.

(** The instance: [self.bucket] is the only attribute ever assigned. *)
Record t : Type := { bucket : string }.

Section Methods.
Context {W Obj : Type} `{ObjectStore W} `{Pickle Obj}.

(** [def __init__(self, bucket=None)]; the argument is [None] for Python's
    [None], which is also what an omitted argument defaults to. *)
Definition __init__ (bucket : option string) : M W t :=
  match bucket with
  | None => raise AssertionError          (* assert bucket is not None *)
  | Some b => ret {| bucket := b |}       (* self.bucket = bucket *)
  end.

(** [def dump(self, model, path)] *)
Definition dump (self : t) (model : Obj) (path : string) : M W unit :=
  io_buffer <- lift (pk_dump model) ;;
  boto3_resource "s3" ;;;
  obj <- resource_Object (bucket self) path ;;
  Object_put obj io_buffer.

(** [def load(self, path)]; its first [Object(...)] statement builds a
    handle and drops it. *)
Definition load (self : t) (path : string) : M W Obj :=
  boto3_resource "s3" ;;;
  resource_Object (bucket self) path ;;;
  obj <- resource_Object (bucket self) path ;;
  body_string <- Object_get_Body_read obj ;;
  lift (pk_loads body_string).

(** [load] without that first statement. *)
Definition load_direct (self : t) (path : string) : M W Obj :=
  boto3_resource "s3" ;;;
  obj <- resource_Object (bucket self) path ;;
  body_string <- Object_get_Body_read obj ;;
  lift (pk_loads body_string).

(** *** An instance in use *)

(** A method call on an instance, and what it gives back: [dump] returns
    [None], [load] the object. *)
Inductive call : Type :=
| Dump (model : Obj) (path : string)
| Load (path : string).

Definition invoke (self : t) (c : call) : M W (option Obj) :=
  match c with
  | Dump model path => dump self model path ;;; ret None
  | Load path => o <- load self path ;; ret (Some o)
  end.

(** The instance together with the world it runs in.  Neither method assigns
    an attribute, so a call hands the instance on as it found it. *)
Record session : Type := { self : t; world : W }.

Definition step (s : session) (c : call) : (exn + option Obj) * session :=
  let (r, w') := invoke (self s) c (world s) in
  (r, {| self := self s; world := w' |}).

(** A caller making the calls one after the other, going on after an
    exception. *)
Definition run (s : session) (cs : list call) : session :=
  fold_left (fun s c => snd (step s c)) cs s.

End Methods.

Arguments call : clear implicits.

End PickleS3.

(** ** PickleS3 instances as objects *)

(** The methods once more, this time with [self] as Python has it: an
    object whose attributes a method can read and assign.  The state of a
    computation is the attribute dictionary of the instance together with
    the world outside. *)
Module Instance.

Record t (W : Type) : Type := { attrs : gmap string string; outer : W }.
Arguments attrs {W} _.
Arguments outer {W} _.

Section Methods.
Context {W Obj : Type} `{ObjectStore W} `{Pickle Obj}.

(** [self.name] *)
Definition getattr (name : string) : M (t W) string :=
  fun s =>
    (match attrs s !! name with
     | Some v => inr v
     | None => inl (AttributeError name)
     end, s).

(** [self.name = value] *)
Definition setattr (name value : string) : M (t W) unit :=
  fun s => (inr tt, {| attrs := <[name := value]> (attrs s); outer := outer s |}).

(** A library call: it is handed values, not the instance. *)
Definition outside {A} (m : M W A) : M (t W) A :=
  fun s => let (r, w') := m (outer s) in (r, {| attrs := attrs s; outer := w' |}).

(** [def __init__(self, bucket=None)] *)
Definition __init__ (bucket : option string) : M (t W) unit :=
  match bucket with
  | None => raise AssertionError          (* assert bucket is not None *)
  | Some b => setattr "bucket" b          (* self.bucket = bucket *)
  end.

(** [def dump(self, model, path)] *)
Definition dump (model : Obj) (path : string) : M (t W) unit :=
  io_buffer <- lift (pk_dump model) ;;
  outside (boto3_resource "s3") ;;;
  bucket <- getattr "bucket" ;;
  obj <- outside (resource_Object bucket path) ;;
  outside (Object_put obj io_buffer).

(** [def load(self, path)] *)
Definition load (path : string) : M (t W) Obj :=
  outside (boto3_resource "s3") ;;;
  (bucket <- getattr "bucket" ;; outside (resource_Object bucket path)) ;;;
  bucket <- getattr "bucket" ;;
  obj <- outside (resource_Object bucket path) ;;
  body_string <- outside (Object_get_Body_read obj) ;;
  lift (pk_loads body_string).

(** [PickleS3(bucket)]: [__init__] on a new object, which has no attribute
    yet. *)
Definition new (bucket : option string) (w : W) : (exn + unit) * t W :=
  __init__ bucket {| attrs := ∅; outer := w |}.

(** A method call, and a caller making calls one after the other, going on
    after an exception. *)
Definition call_method (c : PickleS3.call Obj) : M (t W) (option Obj) :=
  match c with
  | PickleS3.Dump model path => dump model path ;;; ret None
  | PickleS3.Load path => o <- load path ;; ret (Some o)
  end.

Definition run (s : t W) (cs : list (PickleS3.call Obj)) : t W :=
  fold_left (fun s c => snd (call_method c s)) cs s.

End Methods.

End Instance.

(** ** Strings and paths *)

(** [s.startswith(p)], [s.endswith(p)], [sub in s]. *)
Definition startswith (s p : string) : bool := String.prefix p s.
Definition endswith (s p : string) : bool :=
  String.prefix (String.rev p) (String.rev s).
Definition contains (sub s : string) : bool :=
  match String.index 0 sub s with Some _ => true | None => false end.

(** [os.path.join(a, b)] on a POSIX host. *)
Definition os_path_join (a b : string) : string :=
  if startswith b "/" then b
  else if (String.eqb a "" || endswith a "/")%bool then a ++ b
  else a ++ "/" ++ b.

(** ** CSV files *)

(** [pd.read_csv(BytesIO(body), sep=sep, compression=..., **kwargs)]; the
    compression is [None] where the call does not pass one. *)
Class Pandas (DataFrame : Type) : Type := {
  pd_read_csv :
    bytes -> string -> option string -> list (string * string) -> exn + DataFrame
}.

Definition newline : string := String (ascii_of_nat 10) "".

(** The text of the [print] call of [read_csv_s3]: its two arguments with a
    blank between them. *)
Definition compression_message (compression : string) : string :=
  "Error in read_csv_s3: compression not recognized/implemented." ++ newline
  ++ "CSV ompression: " ++ " " ++ compression.

(** [str(v)] of an optional string. *)
Definition py_str (v : option string) : string :=
  match v with Some s => s | None => "None" end.

Section Csv.
Context {W DataFrame : Type} `{ObjectStore W} `{Console W} `{Pandas DataFrame}.

(** [def read_csv_s3(s3_bucket, path, sep=",", compression=None, **kwargs)];
    the result is [None] where the function falls off its end. *)
Definition read_csv_s3 (s3_bucket path sep : string) (compression : option string)
    (kwargs : list (string * string)) : M W (option DataFrame) :=
  py_assert (negb (contains "/" s3_bucket)) ;;;
  py_assert (negb (startswith path "/")) ;;;
  if bool_decide (compression = Some "gzip") then
    py_assert (endswith path ".csv.gz") ;;;
    boto3_client "s3" ;;;
    body <- client_get_object_Body_read s3_bucket path ;;
    df <- lift (pd_read_csv body sep (Some "gzip") kwargs) ;;
    ret (Some df)
  else if bool_decide (compression = None) then
    py_assert (endswith path ".csv") ;;;
    boto3_client "s3" ;;;
    body <- client_get_object_Body_read s3_bucket path ;;
    df <- lift (pd_read_csv body sep None kwargs) ;;
    ret (Some df)
  else
    print (compression_message (py_str compression)) ;;;
    ret None.

End Csv.

(** ** Parquet files *)

(** A column of a parquet file: its dtype and its values. *)
Record Column : Type := { dtype : string; values : list Z }.

(** A parquet file as fastparquet shows it: its columns in file order. *)
Record ParquetFile : Type := { table : list (string * Column) }.

Abbreviation DataFrame := (list (string * Column)).

(** [pf.dtypes], a dictionary from column name to dtype, in file order. *)
Definition dtypes (pf : ParquetFile) : list (string * string) :=
  map (fun '(c, col) => (c, dtype col)) (table pf).

(** Iterating a dictionary yields its keys; [c in d] looks among them. *)
Definition keys {A} (d : list (string * A)) : list string := map fst d.
Definition py_in {A} (c : string) (d : list (string * A)) : bool :=
  bool_decide (c ∈ keys d).

Fixpoint find_column (c : string) (t : list (string * Column)) : option Column :=
  match t with
  | [] => None
  | (c', col) :: t' => if String.eqb c c' then Some col else find_column c t'
  end.

(** [pf.to_pandas(columns)]: the listed columns, in the order listed. *)
Fixpoint to_pandas (pf : ParquetFile) (columns : list string) : exn + DataFrame :=
  match columns with
  | [] => inr []
  | c :: cs =>
      match find_column c (table pf) with
      | None => inl (ValueError ("Column not found: " ++ c))
      | Some col =>
          match to_pandas pf cs with
          | inl e => inl e
          | inr df => inr ((c, col) :: df)
          end
      end
  end.

(** [s3fs.S3FileSystem()], and [fastparquet.ParquetFile(path,
    open_with=s3.open)] on it. *)
Class Fastparquet (W : Type) : Type := {
  S3FileSystem : M W unit;
  ParquetFile_open : string -> M W ParquetFile
}.

Section Parquet.
Context {W : Type} `{Fastparquet W}.

(** The loop collecting [missing_columns]. *)
Definition missing_columns_of (pf : ParquetFile) (columns : list string)
    : list string :=
  fold_left
    (fun missing_columns col =>
       if negb (py_in col (dtypes pf)) then (missing_columns ++ [col])%list
       else missing_columns)
    columns [].

(** [def read_parquet_s3(s3_bucket, path, columns=None, skip_missing_colums=False)] *)
Definition read_parquet_s3 (s3_bucket path : string) (columns : option (list string))
    (skip_missing_colums : bool) : M W DataFrame :=
  py_assert (negb (contains "/" s3_bucket)) ;;;
  py_assert (negb (startswith path "/")) ;;;
  py_assert (endswith path ".parquet") ;;;
  S3FileSystem ;;;
  let path := os_path_join s3_bucket path in
  pf <- ParquetFile_open path ;;
  columns <-
    match columns with
    | Some columns =>
        let missing_columns := missing_columns_of pf columns in
        if (negb (bool_decide (missing_columns = [])) && negb skip_missing_colums)%bool
        then raise (ValueError "Missing columns in {path}: {missing_columns}")
        else ret (filter (fun c => c ∉ missing_columns) columns)
    | None =>
        ret (filter (fun c => c ≠ "autoFilledFields") (keys (dtypes pf)))
    end ;;
  lift (to_pandas pf columns).

End Parquet.

(** ** A concrete world: the store as a finite map *)

(** The objects held, by (bucket, key); the requests served so far, oldest
    first; and what was printed. *)
Record World : Type := {
  objects : gmap (string * string) bytes;
  requests : list request;
  stdout : list string
}.

Definition empty_world : World :=
  {| objects := ∅; requests := []; stdout := [] |}.

Definition served (r : request) (w : World) : World :=
  {| objects := objects w; requests := requests w ++ [r]; stdout := stdout w |}.

Definition store_put (b k : string) (body : bytes) : M World unit :=
  fun w =>
    (inr tt,
     {| objects := <[(b, k) := body]> (objects w);
        requests := requests w ++ [PutObject b k body];
        stdout := stdout w |}).

Definition store_get (b k : string) : M World bytes :=
  fun w =>
    (match objects w !! (b, k) with
     | Some body => inr body
     | None => inl NoSuchKey
     end,
     served (GetObject b k) w).

(** boto3 resources are lazy: building the resource, the client or a handle
    asks the store nothing. *)
#[export] Instance MapStore : ObjectStore World := {
  boto3_resource service := ret tt;
  boto3_client service := ret tt;
  resource_Object b k := ret {| bucket_name := b; key := k |};
  Object_put obj body := store_put (bucket_name obj) (key obj) body;
  Object_get_Body_read obj := store_get (bucket_name obj) (key obj);
  client_get_object_Body_read b k := store_get b k
}.

#[export] Instance WorldConsole : Console World := {
  print s := fun w =>
    (inr tt,
     {| objects := objects w; requests := requests w; stdout := stdout w ++ [s] |})
}.

(** The number of put requests in a log. *)
Definition is_put (r : request) : bool :=
  match r with PutObject _ _ _ => true | GetObject _ _ => false end.
Definition puts (log : list request) : nat := length (List.filter is_put log).

(** ** A store that can fail *)

(** The map store behind an unreliable link: every request meets the next
    entry of a fault schedule, and fails with it when it holds an
    exception, before it reaches the store. *)
Record Flaky : Type := { base : World; faults : list (option exn) }.

Definition flaky {A} (m : M World A) : M Flaky A :=
  fun f =>
    match faults f with
    | Some e :: rest => (inl e, {| base := base f; faults := rest |})
    | None :: rest =>
        let (r, w) := m (base f) in (r, {| base := w; faults := rest |})
    | [] =>
        let (r, w) := m (base f) in (r, {| base := w; faults := [] |})
    end.

#[export] Instance FlakyStore : ObjectStore Flaky := {
  boto3_resource service := ret tt;
  boto3_client service := ret tt;
  resource_Object b k := ret {| bucket_name := b; key := k |};
  Object_put obj body := flaky (store_put (bucket_name obj) (key obj) body);
  Object_get_Body_read obj := flaky (store_get (bucket_name obj) (key obj));
  client_get_object_Body_read b k := flaky (store_get b k)
}.

(** ** A store that counts the handles built *)

(** The map store with a record of the client's work: every handle built
    with [Object(bucket, key)] is noted, in order.  Building one still asks
    the store nothing. *)
Record Counted : Type := { under : World; built : list s3_Object }.

Definition counted {A} (m : M World A) : M Counted A :=
  fun c => let (r, w) := m (under c) in (r, {| under := w; built := built c |}).

#[export] Instance CountingStore : ObjectStore Counted := {
  boto3_resource service := counted (boto3_resource service);
  boto3_client service := counted (boto3_client service);
  resource_Object b k := fun c =>
    let (r, w) := resource_Object b k (under c) in
    (r, {| under := w;
           built := built c ++ [{| bucket_name := b; key := k |}] |});
  Object_put obj body := counted (Object_put obj body);
  Object_get_Body_read obj := counted (Object_get_Body_read obj);
  client_get_object_Body_read b k := counted (client_get_object_Body_read b k)
}.

(** ** A fragment of the pickle format *)

(** A few Python objects: [None], the booleans, the integers below 256, and
    a lambda, which pickle refuses. *)
Inductive pyobj : Type :=
| PyNone
| PyBool (b : bool)
| PyInt (n : byte)
| PyLambda.

(** Protocol 4 on these objects: PROTO 4, one opcode (NONE, NEWTRUE,
    NEWFALSE or BININT1 with its byte), STOP. *)
Definition pickle_dumps (o : pyobj) : exn + bytes :=
  match o with
  | PyNone => inr [x80; x04; x4e; x2e]
  | PyBool true => inr [x80; x04; x88; x2e]
  | PyBool false => inr [x80; x04; x89; x2e]
  | PyInt n => inr [x80; x04; x4b; n; x2e]
  | PyLambda => inl PicklingError
  end.

(** The reader of the fragment; other byte strings are reported as
    [UnpicklingError]. *)
Definition pickle_loads (bs : bytes) : exn + pyobj :=
  match bs with
  | proto :: version :: rest =>
      if (Byte.eqb proto x80 && Byte.eqb version x04)%bool then
        match rest with
        | [op; stop] =>
            if negb (Byte.eqb stop x2e) then inl UnpicklingError
            else if Byte.eqb op x4e then inr PyNone
            else if Byte.eqb op x88 then inr (PyBool true)
            else if Byte.eqb op x89 then inr (PyBool false)
            else inl UnpicklingError
        | [op; n; stop] =>
            if (Byte.eqb op x4b && Byte.eqb stop x2e)%bool then inr (PyInt n)
            else inl UnpicklingError
        | _ => inl UnpicklingError
        end
      else inl UnpicklingError
  | _ => inl UnpicklingError
  end.

#[export] Instance pickle_fragment : Pickle pyobj := {
  pk_dump := pickle_dumps;
  pk_loads := pickle_loads
}.

(** ** Files and frames for the examples *)

(** An s3fs file system holding parquet files by path. *)
#[export] Instance ParquetLake : Fastparquet (gmap string ParquetFile) := {
  S3FileSystem := ret tt;
  ParquetFile_open path := fun fs =>
    (match fs !! path with
     | Some pf => inr pf
     | None => inl (FileNotFoundError path)
     end, fs)
}.

(** A dataframe library that keeps the bytes it is given. *)
#[export] Instance RawFrames : Pandas bytes := {
  pd_read_csv body sep compression kwargs := inr body
}.

Definition events_parquet : ParquetFile :=
  {| table :=
       [("user", {| dtype := "int64"; values := [1; 2]%Z |});
        ("autoFilledFields", {| dtype := "object"; values := [0; 0]%Z |});
        ("amount", {| dtype := "int64"; values := [10; 20]%Z |})] |}.

Definition lake : gmap string ParquetFile :=
  {[ "lake/events.parquet" := events_parquet ]}.

(** An instance bound to the bucket ["models"], a world holding one pickled
    object, and a link that drops the first request made on it. *)
Definition models : PickleS3.t := {| PickleS3.bucket := "models" |}.

Definition stocked : World :=
  snd (PickleS3.dump models (PyInt x07) "m.pkl" empty_world).

Definition bad_link : Flaky :=
  {| base := stocked; faults := [Some EndpointConnectionError; None] |}.

(** The same world for a caller the store denies. *)
Definition locked : Flaky :=
  {| base := stocked; faults := [Some AccessDenied] |}.

(** ** The other helpers of the module *)

(** [data.to_csv(csv_buffer, **kwargs)] on a fresh [StringIO], followed by
    [csv_buffer.getvalue()]: the text written. *)
Class PandasCsvWriter (Frame : Type) : Type := {
  to_csv : Frame -> list (string * string) -> exn + string
}.

(** A [str] body is sent as its UTF-8 bytes; a string here is held as its
    bytes. *)
Definition utf8_bytes (text : string) : bytes := list_byte_of_string text.

Section CsvWriter.
Context {W Frame : Type} `{ObjectStore W} `{PandasCsvWriter Frame}.

(** [def write_csv_s3(s3_bucket, path, data, **kwargs)] *)
Definition write_csv_s3 (s3_bucket path : string) (data : Frame)
    (kwargs : list (string * string)) : M W unit :=
  csv_buffer <- lift (to_csv data kwargs) ;;
  boto3_resource "s3" ;;;
  obj <- resource_Object s3_bucket path ;;
  Object_put obj (utf8_bytes csv_buffer).

End CsvWriter.

(** [fastparquet.write(path, data, compression=..., open_with=myopen,
    write_index=...)] *)
Class FastparquetWriter (W : Type) : Type := {
  fastparquet_write : string -> DataFrame -> option string -> bool -> M W unit
}.

Section ParquetWriter.
Context {W : Type} `{Fastparquet W} `{FastparquetWriter W}.

(** [def write_parquet_s3(s3_bucket, path, data, compression='snappy')] *)
Definition write_parquet_s3 (s3_bucket path : string) (data : DataFrame)
    (compression : option string) : M W unit :=
  py_assert (negb (contains "/" s3_bucket)) ;;;
  py_assert (endswith path ".parquet") ;;;
  py_assert (negb (startswith path "/")) ;;;
  S3FileSystem ;;;
  fastparquet_write (os_path_join s3_bucket path) data compression true.

End ParquetWriter.

(** [pd.read_excel(href)], which fetches the file itself. *)
Class PandasExcel (W Frame : Type) : Type := {
  pd_read_excel : string -> M W Frame
}.

Section Excel.
Context {W Frame : Type} `{PandasExcel W Frame}.

(** [def read_excel_s3(s3_bucket, path)] *)
Definition read_excel_s3 (s3_bucket path : string) : M W Frame :=
  py_assert (negb (contains "/" s3_bucket)) ;;;
  py_assert (negb (startswith path "/")) ;;;
  py_assert (endswith path ".xlsx") ;;;
  let href := "s3n://" ++ s3_bucket ++ "/" ++ path in
  pd_read_excel href.

End Excel.

(** *** What the assertions of the helpers let through *)

(** The extension [read_csv_s3] asks of the path, by compression. *)
Definition csv_extension_ok (path : string) (compression : option string) : bool :=
  if bool_decide (compression = Some "gzip") then endswith path ".csv.gz"
  else if bool_decide (compression = None) then endswith path ".csv"
  else true.

Definition csv_guard (s3_bucket path : string) (compression : option string) : bool :=
  (negb (contains "/" s3_bucket) && negb (startswith path "/")
   && csv_extension_ok path compression)%bool.

(** The three assertions of the parquet and excel helpers, for the extension
    [ext]. *)
Definition file_guard (ext s3_bucket path : string) : bool :=
  (negb (contains "/" s3_bucket) && negb (startswith path "/")
   && endswith path ext)%bool.

(** *** The entry of a key after a run of calls *)

(** The bytes held at key [k] of the bucket of an instance after the calls
    [cs], when it held [entry] before: those of the last [dump] to [k] that
    the serializer accepted. *)
Fixpoint last_written {Obj : Type} `{Pickle Obj} (k : string)
    (cs : list (PickleS3.call Obj)) (entry : option bytes) : option bytes :=
  match cs with
  | [] => entry
  | PickleS3.Dump model path :: cs' =>
      if String.eqb path k then
        match pk_dump model with
        | inr bs => last_written k cs' (Some bs)
        | inl _ => last_written k cs' entry
        end
      else last_written k cs' entry
  | PickleS3.Load _ :: cs' => last_written k cs' entry
  end.

(** *** More files and frames for the examples *)

(** The writer of the library that keeps the bytes it is given. *)
#[export] Instance RawCsv : PandasCsvWriter bytes := {
  to_csv data kwargs := inr (string_of_list_byte data)
}.

(** Writing a frame on the file system of parquet files. *)
#[export] Instance ParquetLakeWriter : FastparquetWriter (gmap string ParquetFile) := {
  fastparquet_write path data compression write_index := fun fs =>
    (inr tt, <[path := {| table := data |}]> fs)
}.

(** Excel sheets by URL. *)
#[export] Instance Sheets : PandasExcel (gmap string DataFrame) DataFrame := {
  pd_read_excel href := fun sheets =>
    (match sheets !! href with
     | Some df => inr df
     | None => inl (FileNotFoundError href)
     end, sheets)
}.

(** ** Vocabulary of the statements *)

Section Vocabulary.
Context {W Obj : Type} `{ObjectStore W} `{Pickle Obj}.

(** The places where [dump] can stop: the serializer, the resource, the
    handle, the put.  [dump_stops self model path w e w'] reads: started in
    [w], that library call raised [e] and left the world [w']. *)
Inductive dump_stops (self : PickleS3.t) (model : Obj) (path : string) (w : W)
  : exn -> W -> Prop :=
| dump_stops_pickling e :
    pk_dump model = inl e ->
    dump_stops self model path w e w
| dump_stops_resource bs e w' :
    pk_dump model = inr bs ->
    boto3_resource "s3" w = (inl e, w') ->
    dump_stops self model path w e w'
| dump_stops_handle bs w0 e w' :
    pk_dump model = inr bs ->
    boto3_resource "s3" w = (inr tt, w0) ->
    resource_Object (PickleS3.bucket self) path w0 = (inl e, w') ->
    dump_stops self model path w e w'
| dump_stops_put bs w0 obj w1 e w' :
    pk_dump model = inr bs ->
    boto3_resource "s3" w = (inr tt, w0) ->
    resource_Object (PickleS3.bucket self) path w0 = (inr obj, w1) ->
    Object_put obj bs w1 = (inl e, w') ->
    dump_stops self model path w e w'.

(** The places where [load] can stop: the resource, either handle, the get,
    the deserializer. *)
Inductive load_stops (self : PickleS3.t) (path : string) (w : W)
  : exn -> W -> Prop :=
| load_stops_resource e w' :
    boto3_resource "s3" w = (inl e, w') ->
    load_stops self path w e w'
| load_stops_first_handle w0 e w' :
    boto3_resource "s3" w = (inr tt, w0) ->
    resource_Object (PickleS3.bucket self) path w0 = (inl e, w') ->
    load_stops self path w e w'
| load_stops_handle w0 obj1 w1 e w' :
    boto3_resource "s3" w = (inr tt, w0) ->
    resource_Object (PickleS3.bucket self) path w0 = (inr obj1, w1) ->
    resource_Object (PickleS3.bucket self) path w1 = (inl e, w') ->
    load_stops self path w e w'
| load_stops_get w0 obj1 w1 obj w2 e w' :
    boto3_resource "s3" w = (inr tt, w0) ->
    resource_Object (PickleS3.bucket self) path w0 = (inr obj1, w1) ->
    resource_Object (PickleS3.bucket self) path w1 = (inr obj, w2) ->
    Object_get_Body_read obj w2 = (inl e, w') ->
    load_stops self path w e w'
| load_stops_unpickling w0 obj1 w1 obj w2 body e w' :
    boto3_resource "s3" w = (inr tt, w0) ->
    resource_Object (PickleS3.bucket self) path w0 = (inr obj1, w1) ->
    resource_Object (PickleS3.bucket self) path w1 = (inr obj, w2) ->
    Object_get_Body_read obj w2 = (inr body, w') ->
    pk_loads body = inl e ->
    load_stops self path w e w'.

End Vocabulary.

Arguments load_stops {W} Obj {_ _} self path w _ _.

(** * Properties *)

(** ** Sequencing *)

Section Sequencing.
Context {W A B : Type}.

Lemma bind_returned (m : M W A) (f : A -> M W B) (w w' : W) (a : A) :
  m w = (inr a, w') -> bind m f w = f a w'.
Proof. intros Hm. unfold bind. now rewrite Hm. Qed.

Lemma bind_raised (m : M W A) (f : A -> M W B) (w w' : W) (e : exn) :
  m w = (inl e, w') -> bind m f w = (inl e, w').
Proof. intros Hm. unfold bind. now rewrite Hm. Qed.

Lemma bind_lift_returned (r : exn + A) (f : A -> M W B) (w : W) (a : A) :
  r = inr a -> bind (lift r) f w = f a w.
Proof. intros ->. reflexivity. Qed.

Lemma bind_lift_raised (r : exn + A) (f : A -> M W B) (w : W) (e : exn) :
  r = inl e -> bind (lift r) f w = (inl e, w).
Proof. intros ->. reflexivity. Qed.

End Sequencing.

(** ** PickleS3 on the map store *)

Section OnTheMapStore.
Context {Obj : Type} `{Pickle Obj}.
Implicit Types (self : PickleS3.t) (o : Obj) (k : string) (w : World).

(** [dump] on the map store: the serializer, then one put. *)
Lemma dump_map self o k w :
  PickleS3.dump self o k w =
  match pk_dump o with
  | inl e => (inl e, w)
  | inr bs => store_put (PickleS3.bucket self) k bs w
  end.
Proof.
  unfold PickleS3.dump. destruct (pk_dump o) as [e|bs] eqn:Hd.
  - now apply bind_lift_raised.
  - now rewrite (bind_lift_returned (inr bs) _ w bs).
Qed.

(** [load] on the map store: one get, then the deserializer. *)
Lemma load_map self k w :
  PickleS3.load self k w =
  (match objects w !! (PickleS3.bucket self, k) with
   | Some body => pk_loads body
   | None => inl NoSuchKey
   end,
   served (GetObject (PickleS3.bucket self) k) w).
Proof.
  unfold PickleS3.load, bind, lift, store_get; simpl.
  unfold store_get. destruct (objects w !! (PickleS3.bucket self, k)); reflexivity.
Qed.

Lemma dump_returns self o k w bs :
  pk_dump o = inr bs ->
  PickleS3.dump self o k w =
  (inr tt,
   {| objects := <[(PickleS3.bucket self, k) := bs]> (objects w);
      requests := requests w ++ [PutObject (PickleS3.bucket self) k bs];
      stdout := stdout w |}).
Proof. intros Hd. rewrite dump_map, Hd. reflexivity. Qed.

Lemma load_absent self k w :
  objects w !! (PickleS3.bucket self, k) = None ->
  PickleS3.load self k w =
  (inl NoSuchKey, served (GetObject (PickleS3.bucket self) k) w).
Proof. intros Hk. rewrite load_map, Hk. reflexivity. Qed.

(** C1. Round trip: on the map store, for every serializable object [o] and
    every key [k], [dump(o, k)] returns and a [load(k)] made right after it
    on the same instance returns [o]. *)
Theorem dump_load_roundtrip self o k w :
  serializable o ->
  exists w1 w2,
    PickleS3.dump self o k w = (inr tt, w1) /\
    PickleS3.load self k w1 = (inr o, w2).
Proof.
  intros (bs & Hd & Hl).
  eexists _, _. split.
  - apply dump_returns, Hd.
  - rewrite load_map. simpl. rewrite lookup_insert_eq, Hl. reflexivity.
Qed.

(** C3. Last write wins: on the map store, for serializable [o1] and [o2],
    after [dump(o1, k)] and then [dump(o2, k)] a [load(k)] returns [o2], and
    so not [o1] when the two differ. *)
Theorem dump_overwrites self o1 o2 k w :
  serializable o1 -> serializable o2 ->
  exists w1 w2 w3,
    PickleS3.dump self o1 k w = (inr tt, w1) /\
    PickleS3.dump self o2 k w1 = (inr tt, w2) /\
    PickleS3.load self k w2 = (inr o2, w3) /\
    (o1 <> o2 -> fst (PickleS3.load self k w2) <> inr o1).
Proof.
  intros (bs1 & Hd1 & _) (bs2 & Hd2 & Hl2).
  eexists _, _, _. split; [apply dump_returns, Hd1|].
  split; [apply dump_returns, Hd2|].
  assert (Hload : forall w', PickleS3.load self k
            {| objects := <[(PickleS3.bucket self, k) := bs2]> (objects w');
               requests := requests w' ++ [PutObject (PickleS3.bucket self) k bs2];
               stdout := stdout w' |} =
          (inr o2, served (GetObject (PickleS3.bucket self) k)
            {| objects := <[(PickleS3.bucket self, k) := bs2]> (objects w');
               requests := requests w' ++ [PutObject (PickleS3.bucket self) k bs2];
               stdout := stdout w' |})).
  { intros w'. rewrite load_map. simpl. now rewrite lookup_insert_eq, Hl2. }
  split; [apply Hload|].
  intros Hne. rewrite Hload. simpl. congruence.
Qed.

End OnTheMapStore.

(** ** PickleS3 over any store and any serializer *)

Section OverAnyStore.
Context {W Obj : Type} `{ObjectStore W} `{Pickle Obj}.
Implicit Types (self : PickleS3.t) (o : Obj) (k : string) (w : W).

Lemma invoke_world self (c : PickleS3.call Obj) w :
  snd (PickleS3.invoke self c w) =
  match c with
  | PickleS3.Dump model path => snd (PickleS3.dump self model path w)
  | PickleS3.Load path => snd (PickleS3.load (Obj := Obj) self path w)
  end.
Proof.
  destruct c as [model path|path]; unfold PickleS3.invoke, bind.
  - destruct (PickleS3.dump self model path w) as [[e|[]] w']; reflexivity.
  - destruct (PickleS3.load self path w) as [[e|o] w']; reflexivity.
Qed.

Lemma step_self (s : PickleS3.session) (c : PickleS3.call Obj) :
  PickleS3.self (snd (PickleS3.step s c)) = PickleS3.self s.
Proof.
  unfold PickleS3.step.
  destruct (PickleS3.invoke (PickleS3.self s) c (PickleS3.world s)); reflexivity.
Qed.

Lemma step_world (s : PickleS3.session) (c : PickleS3.call Obj) :
  PickleS3.world (snd (PickleS3.step s c)) =
  snd (PickleS3.invoke (PickleS3.self s) c (PickleS3.world s)).
Proof.
  unfold PickleS3.step.
  destruct (PickleS3.invoke (PickleS3.self s) c (PickleS3.world s)); reflexivity.
Qed.

Lemma run_cons (s : PickleS3.session) (c : PickleS3.call Obj) cs :
  PickleS3.run s (c :: cs) = PickleS3.run (snd (PickleS3.step s c)) cs.
Proof. reflexivity. Qed.

Lemma run_self (cs : list (PickleS3.call Obj)) :
  forall s : PickleS3.session, PickleS3.self (PickleS3.run s cs) = PickleS3.self s.
Proof.
  induction cs as [|c cs IH]; intros s; [reflexivity|].
  rewrite run_cons, IH. apply step_self.
Qed.

(** C2, as amended. Construction fails, with [AssertionError] and the world
    untouched, exactly when the bucket is [None]; with any other bucket, the
    empty string included, it returns an instance bound to that bucket, the
    world untouched again. *)
Theorem init_requires_bucket w :
  PickleS3.__init__ None w = (inl AssertionError, w) /\
  forall b, PickleS3.__init__ (Some b) w = (inr {| PickleS3.bucket := b |}, w).
Proof. split; [|intros b]; reflexivity. Qed.

(** C5. Errors pass through: [dump] (and [load]) ends with exception [e] in
    world [w'] exactly when one of the library calls it makes, in order,
    raised [e] and left [w'].  So what a library call raises is what the
    caller gets, with the world as that call left it (nothing is run after
    it), and the methods raise nothing of their own. *)
Theorem errors_propagate self w :
  (forall o k e w',
      PickleS3.dump self o k w = (inl e, w') <-> dump_stops self o k w e w') /\
  (forall k e w',
      PickleS3.load (Obj := Obj) self k w = (inl e, w') <->
      load_stops Obj self k w e w').
Proof.
  split.
  - intros o k e w'. unfold PickleS3.dump, bind, lift. split.
    + destruct (pk_dump o) as [e0|bs] eqn:Hd.
      { intros [= <- <-]. now constructor. }
      destruct (boto3_resource "s3" w) as [[e1|[]] w0] eqn:Hr.
      { intros [= <- <-]. eapply dump_stops_resource; eauto. }
      destruct (resource_Object (PickleS3.bucket self) k w0) as [[e2|obj] w1] eqn:Hh.
      { intros [= <- <-]. eapply dump_stops_handle; eauto. }
      intros Hp. eapply dump_stops_put; eauto.
    + intros [e0 Hd|bs e0 w0 Hd Hr|bs w0 e0 w1 Hd Hr Hh|bs w0 obj w1 e0 w2 Hd Hr Hh Hp];
        rewrite Hd; try rewrite Hr; try rewrite Hh; auto.
  - intros k e w'. unfold PickleS3.load, bind, lift. split.
    + destruct (boto3_resource "s3" w) as [[e0|[]] w0] eqn:Hr.
      { intros [= <- <-]. now apply load_stops_resource. }
      destruct (resource_Object (PickleS3.bucket self) k w0) as [[e1|obj1] w1] eqn:Hh1.
      { intros [= <- <-]. eapply load_stops_first_handle; eauto. }
      destruct (resource_Object (PickleS3.bucket self) k w1) as [[e2|obj] w2] eqn:Hh2.
      { intros [= <- <-]. eapply load_stops_handle; eauto. }
      destruct (Object_get_Body_read obj w2) as [[e3|body] w3] eqn:Hg.
      { intros [= <- <-]. eapply load_stops_get; eauto. }
      intros [= Hl <-]. eapply load_stops_unpickling; eauto.
    + intros [e0 w0 Hr|w0 e0 w1 Hr Hh1|w0 obj1 w1 e0 w2 Hr Hh1 Hh2
             |w0 obj1 w1 obj w2 e0 w3 Hr Hh1 Hh2 Hg
             |w0 obj1 w1 obj w2 body e0 w3 Hr Hh1 Hh2 Hg Hl];
        rewrite Hr; try rewrite Hh1; try rewrite Hh2; try rewrite Hg;
        try rewrite Hl; auto.
Qed.

End OverAnyStore.

(** ** Frames and histories on the map store *)

Section MapStoreFrames.
Context {Obj : Type} `{Pickle Obj}.
Implicit Types (self : PickleS3.t) (o : Obj) (k : string) (w : World).

(** [dump] leaves every entry but its own as it was. *)
Lemma dump_elsewhere self o k w (b' k' : string) :
  (b', k') <> (PickleS3.bucket self, k) ->
  objects (snd (PickleS3.dump self o k w)) !! (b', k') = objects w !! (b', k').
Proof.
  intros Hne. rewrite dump_map. destruct (pk_dump o) as [e|bs]; [reflexivity|].
  simpl. apply lookup_insert_ne. congruence.
Qed.

(** [load] leaves every entry as it was. *)
Lemma load_objects self k w :
  objects (snd (PickleS3.load (Obj := Obj) self k w)) = objects w.
Proof. rewrite load_map. reflexivity. Qed.

(** A call that is not a [dump] to key [k] leaves the entry of [k] in the
    bucket of the instance as it was. *)
Lemma step_elsewhere (s : PickleS3.session) (c : PickleS3.call Obj) k :
  (forall model, c <> PickleS3.Dump model k) ->
  objects (PickleS3.world (snd (PickleS3.step s c)))
    !! (PickleS3.bucket (PickleS3.self s), k)
  = objects (PickleS3.world s) !! (PickleS3.bucket (PickleS3.self s), k).
Proof.
  intros Hc. rewrite step_world, invoke_world. destruct c as [model path|path].
  - apply dump_elsewhere. intros [= Hk]. apply (Hc model). now rewrite Hk.
  - now rewrite load_objects.
Qed.

Lemma run_elsewhere (cs : list (PickleS3.call Obj)) k :
  (forall model, PickleS3.Dump model k ∉ cs) ->
  forall s : PickleS3.session,
    objects (PickleS3.world (PickleS3.run s cs))
      !! (PickleS3.bucket (PickleS3.self s), k)
    = objects (PickleS3.world s) !! (PickleS3.bucket (PickleS3.self s), k).
Proof.
  induction cs as [|c cs IH]; intros Hcs s; [reflexivity|].
  rewrite run_cons.
  assert (Hc : forall model, c <> PickleS3.Dump model k).
  { intros model ->. apply (Hcs model). left. }
  assert (Hrest : forall model, PickleS3.Dump model k ∉ cs).
  { intros model Hin. apply (Hcs model). now right. }
  rewrite <- (step_self s c), (IH Hrest), step_self.
  now apply step_elsewhere.
Qed.

(** C4. Missing key: on the map store, when the bucket of the instance holds
    nothing at key [k] and none of the calls made on the instance since is a
    [dump] to [k], [load(k)] raises the store's [NoSuchKey] error (after its
    one get request); it returns no value. *)
Theorem load_never_written self k (cs : list (PickleS3.call Obj)) w :
  objects w !! (PickleS3.bucket self, k) = None ->
  (forall model, PickleS3.Dump model k ∉ cs) ->
  let w' := PickleS3.world
              (PickleS3.run {| PickleS3.self := self; PickleS3.world := w |} cs) in
  PickleS3.load (Obj := Obj) self k w' =
  (inl NoSuchKey, served (GetObject (PickleS3.bucket self) k) w').
Proof.
  intros Hk Hcs w'. apply load_absent. unfold w'.
  pose proof (run_elsewhere cs k Hcs
                {| PickleS3.self := self; PickleS3.world := w |}) as Hrun.
  simpl in Hrun. now rewrite Hrun.
Qed.

(** C6, as amended. Frame of [dump] on the map store: whatever the object,
    every entry other than (bucket, [k]) is as it was; when the serializer
    accepts the object, [dump] returns after exactly one put request, which
    sets the entry at (bucket, [k]) to the serialized bytes; when the
    serializer refuses it, [dump] raises the serializer's error with the
    world untouched, having made no request. *)
Theorem dump_frame self o k w :
  (forall b' k', (b', k') <> (PickleS3.bucket self, k) ->
     objects (snd (PickleS3.dump self o k w)) !! (b', k') = objects w !! (b', k')) /\
  (forall bs, pk_dump o = inr bs ->
     exists w', PickleS3.dump self o k w = (inr tt, w') /\
       requests w' = (requests w ++ [PutObject (PickleS3.bucket self) k bs])%list /\
       puts (requests w') = S (puts (requests w)) /\
       objects w' = <[(PickleS3.bucket self, k) := bs]> (objects w)) /\
  (forall e, pk_dump o = inl e -> PickleS3.dump self o k w = (inl e, w)).
Proof.
  split; [|split].
  - intros b' k'. apply dump_elsewhere.
  - intros bs Hd. eexists. split; [apply dump_returns, Hd|]. simpl.
    repeat split. unfold puts. rewrite List.filter_app, length_app. simpl. lia.
  - intros e Hd. now rewrite dump_map, Hd.
Qed.

End MapStoreFrames.

(** ** The instance as an object *)

Section InstanceState.
Context {W Obj : Type} `{ObjectStore W} `{Pickle Obj}.
Implicit Types (s : Instance.t W) (b : string).

(** [dump] on an instance whose [bucket] attribute is [b]: what the
    function of the bucket does to the world, the attributes as they were. *)
Lemma dump_method_runs s b (model : Obj) (path : string) :
  Instance.attrs s !! "bucket" = Some b ->
  Instance.dump model path s
  = let (r, w') := PickleS3.dump {| PickleS3.bucket := b |} model path
                     (Instance.outer s) in
    (r, {| Instance.attrs := Instance.attrs s; Instance.outer := w' |}).
Proof.
  intros Hb. destruct s as [d w]. simpl in Hb.
  unfold Instance.dump, PickleS3.dump, bind, lift, Instance.outside,
    Instance.getattr; simpl.
  destruct (pk_dump model) as [e|bs]; [reflexivity|].
  destruct (boto3_resource "s3" w) as [[e|[]] w0]; [reflexivity|]. simpl.
  rewrite Hb.
  destruct (resource_Object b path w0) as [[e|obj] w1]; [reflexivity|]. simpl.
  destruct (Object_put obj bs w1) as [r w2]. reflexivity.
Qed.

Lemma load_method_runs s b (path : string) :
  Instance.attrs s !! "bucket" = Some b ->
  Instance.load (Obj := Obj) path s
  = let (r, w') := PickleS3.load {| PickleS3.bucket := b |} path
                     (Instance.outer s) in
    (r, {| Instance.attrs := Instance.attrs s; Instance.outer := w' |}).
Proof.
  intros Hb. destruct s as [d w]. simpl in Hb.
  unfold Instance.load, PickleS3.load, bind, lift, Instance.outside,
    Instance.getattr; simpl.
  destruct (boto3_resource "s3" w) as [[e|[]] w0]; [reflexivity|]. simpl.
  rewrite Hb.
  destruct (resource_Object b path w0) as [[e|obj1] w1]; [reflexivity|]. simpl.
  rewrite Hb.
  destruct (resource_Object b path w1) as [[e|obj] w2]; [reflexivity|]. simpl.
  destruct (Object_get_Body_read obj w2) as [[e|body] w3]; [reflexivity|]. simpl.
  destruct (pk_loads body); reflexivity.
Qed.

Lemma call_method_runs s b (c : PickleS3.call Obj) :
  Instance.attrs s !! "bucket" = Some b ->
  Instance.call_method c s
  = let (r, w') := PickleS3.invoke {| PickleS3.bucket := b |} c (Instance.outer s) in
    (r, {| Instance.attrs := Instance.attrs s; Instance.outer := w' |}).
Proof.
  intros Hb. destruct c as [model path|path];
    unfold Instance.call_method, PickleS3.invoke, bind.
  - rewrite (dump_method_runs s b model path Hb).
    destruct (PickleS3.dump {| PickleS3.bucket := b |} model path (Instance.outer s))
      as [[e|[]] w']; reflexivity.
  - rewrite (load_method_runs s b path Hb).
    destruct (PickleS3.load {| PickleS3.bucket := b |} path (Instance.outer s))
      as [[e|o] w']; reflexivity.
Qed.

(** No call changes an attribute. *)
Lemma call_method_attrs s b (c : PickleS3.call Obj) :
  Instance.attrs s !! "bucket" = Some b ->
  Instance.attrs (snd (Instance.call_method c s)) = Instance.attrs s.
Proof.
  intros Hb. rewrite (call_method_runs s b c Hb).
  now destruct (PickleS3.invoke {| PickleS3.bucket := b |} c (Instance.outer s)).
Qed.

Lemma run_methods_attrs (cs : list (PickleS3.call Obj)) b :
  forall s, Instance.attrs s !! "bucket" = Some b ->
            Instance.attrs (Instance.run s cs) = Instance.attrs s.
Proof.
  induction cs as [|c cs IH]; intros s Hb; [reflexivity|].
  change (Instance.run s (c :: cs))
    with (Instance.run (snd (Instance.call_method c s)) cs).
  pose proof (call_method_attrs s b c Hb) as Hc.
  rewrite IH by now rewrite Hc.
  exact Hc.
Qed.

(** C7. The state of an instance is fixed at construction: [PickleS3(b)]
    gives an object whose one attribute is [bucket], bound to [b], with the
    world untouched; whatever calls to [dump] and [load] are then made on
    it, its attributes are the same afterwards (the bucket is still [b],
    and no attribute was added: nothing is kept from one call to the
    next); and any further call does what the function of the bucket and
    of the world reached does: earlier calls bear on it through the world
    only. *)
Theorem instance_state_is_fixed b (w : W) (cs : list (PickleS3.call Obj)) :
  let made := Instance.new (Some b) w in
  let s := Instance.run (snd made) cs in
  made = (inr tt, {| Instance.attrs := {["bucket" := b]}; Instance.outer := w |}) /\
  Instance.attrs s = {["bucket" := b]} /\
  forall c,
    Instance.call_method c s
    = let (r, w') := PickleS3.invoke {| PickleS3.bucket := b |} c (Instance.outer s) in
      (r, {| Instance.attrs := {["bucket" := b]}; Instance.outer := w' |}).
Proof.
  intros made s.
  assert (Hmade : made = (inr tt, {| Instance.attrs := {["bucket" := b]};
                                     Instance.outer := w |})).
  { unfold made, Instance.new, Instance.__init__, Instance.setattr. simpl.
    now rewrite insert_empty. }
  assert (Hs : Instance.attrs s = {["bucket" := b]}).
  { unfold s. rewrite Hmade. simpl.
    rewrite (run_methods_attrs cs b); [reflexivity|]. simpl.
    apply lookup_singleton_eq. }
  split; [exact Hmade|]. split; [exact Hs|].
  intros c. rewrite (call_method_runs s b c), Hs; [reflexivity|].
  rewrite Hs. apply lookup_singleton_eq.
Qed.

End InstanceState.

(** ** The first statement of load *)

Section FirstStatement.
Context {Obj : Type} `{Pickle Obj}.

(** C8, as amended. The first [Object(...)] statement of [load] builds a
    handle and drops it: [load] builds the handle of (bucket, key) twice
    where [load] without that statement builds it once, and neither
    building asks the store anything.  In all else the two agree, from
    every state of the store and for every key: the same result, the same
    world outside, in which the stored objects are as they were and the
    store has served one more request, the get of the body. *)
Theorem load_builds_two_handles (self : PickleS3.t) (k : string) (c : Counted) :
  let out := PickleS3.load (Obj := Obj) self k c in
  let out' := PickleS3.load_direct (Obj := Obj) self k c in
  let h := {| bucket_name := PickleS3.bucket self; key := k |} in
  built (snd out) = (built c ++ [h; h])%list /\
  built (snd out') = (built c ++ [h])%list /\
  fst out = fst out' /\
  under (snd out) = under (snd out') /\
  objects (under (snd out)) = objects (under c) /\
  requests (under (snd out))
  = (requests (under c) ++ [GetObject (PickleS3.bucket self) k])%list.
Proof.
  intros out out' h. subst out out' h. destruct c as [w log].
  unfold PickleS3.load, PickleS3.load_direct, bind, lift, counted; simpl.
  unfold store_get.
  destruct (objects w !! (PickleS3.bucket self, k)) as [body|]; simpl.
  - destruct (pk_loads body); simpl; rewrite <- app_assoc; now repeat split.
  - rewrite <- app_assoc. now repeat split.
Qed.

End FirstStatement.

(** ** Columns returned by read_parquet_s3 *)

Section ParquetColumns.
Context {W : Type} `{Fastparquet W}.

Lemma keys_dtypes (pf : ParquetFile) : keys (dtypes pf) = keys (table pf).
Proof.
  unfold keys, dtypes. induction (table pf) as [|[c col] t IH]; [reflexivity|].
  simpl. now rewrite IH.
Qed.

(** The loop of [read_parquet_s3] collects the requested columns that the
    file lacks, in the order requested. *)
Lemma missing_columns_of_filter (pf : ParquetFile) (columns : list string) :
  missing_columns_of pf columns = filter (fun c => c ∉ keys (table pf)) columns.
Proof.
  unfold missing_columns_of.
  enough (Hgen : forall acc : list string,
    fold_left
      (fun missing_columns col =>
         if negb (py_in col (dtypes pf)) then (missing_columns ++ [col])%list
         else missing_columns) columns acc
    = (acc ++ filter (fun c => c ∉ keys (table pf)) columns)%list)
    by exact (Hgen []).
  induction columns as [|c cs IH]; intros acc; simpl.
  - now rewrite app_nil_r.
  - rewrite IH. unfold py_in. rewrite keys_dtypes, filter_cons.
    destruct (decide (c ∉ keys (table pf))) as [Hc|Hc].
    + rewrite bool_decide_eq_false_2 by exact Hc. simpl. now rewrite <- app_assoc.
    + apply dec_stable in Hc. now rewrite bool_decide_eq_true_2 by exact Hc.
Qed.

Lemma filter_not_missing (R : string -> Prop) `{!forall c, Decision (R c)}
    (m l : list string) :
  (forall c, c ∈ l -> (c ∉ m <-> R c)) ->
  filter (fun c => c ∉ m) l = filter R l.
Proof.
  induction l as [|c l IH]; intros Hl; [reflexivity|].
  rewrite !filter_cons.
  assert (Hc : c ∉ m <-> R c) by (apply Hl; left).
  rewrite IH by (intros c' Hc'; apply Hl; now right).
  destruct (decide (c ∉ m)), (decide (R c)); tauto.
Qed.

(** The columns handed to [to_pandas] when a list was requested: those of
    the list that the file has. *)
Lemma requested_columns (pf : ParquetFile) (columns : list string) :
  filter (fun c => c ∉ missing_columns_of pf columns) columns
  = filter (fun c => c ∈ keys (table pf)) columns.
Proof.
  apply filter_not_missing. intros c Hc.
  rewrite missing_columns_of_filter, list_elem_of_filter. split.
  - intros Hn. destruct (decide (c ∈ keys (table pf))); tauto.
  - tauto.
Qed.

Lemma find_column_present (c : string) (t : list (string * Column)) :
  c ∈ keys t -> exists col, find_column c t = Some col.
Proof.
  unfold keys. induction t as [|[c' col] t IH]; simpl; intros Hc.
  - now apply elem_of_nil in Hc.
  - destruct (String.eqb_spec c c') as [->|Hne]; [eauto|].
    apply elem_of_cons in Hc as [Hc|Hc]; [contradiction|auto].
Qed.

(** [to_pandas] returns the listed columns, as listed, when the file has
    them all. *)
Lemma to_pandas_returns (pf : ParquetFile) (columns : list string) :
  (forall c, c ∈ columns -> c ∈ keys (table pf)) ->
  exists df, to_pandas pf columns = inr df /\ keys df = columns.
Proof.
  induction columns as [|c cs IH]; intros Hcs; simpl.
  - now exists [].
  - destruct (find_column_present c (table pf)) as [col ->]; [apply Hcs; left|].
    destruct IH as (df & -> & Hdf); [intros c' Hc'; apply Hcs; now right|].
    exists ((c, col) :: df). split; [reflexivity|]. unfold keys in *. simpl.
    now rewrite Hdf.
Qed.

(** C9. For a call that passes the assertions and finds the file: with
    [columns=None] the frame returned has the columns of the file except
    any named ["autoFilledFields"], so not all of them when the file has
    one; with a list of columns no such exclusion is made: the frame has the
    listed columns that the file has, ["autoFilledFields"] among them when
    listed (the call returns when the file has them all, or when missing
    ones are to be skipped). *)
Theorem read_parquet_columns (s3_bucket path : string) (skip : bool)
    (w w0 w' : W) (pf : ParquetFile) :
  contains "/" s3_bucket = false ->
  startswith path "/" = false ->
  endswith path ".parquet" = true ->
  S3FileSystem w = (inr tt, w0) ->
  ParquetFile_open (os_path_join s3_bucket path) w0 = (inr pf, w') ->
  (exists df,
      read_parquet_s3 s3_bucket path None skip w = (inr df, w') /\
      keys df = filter (fun c => c ≠ "autoFilledFields") (keys (table pf)) /\
      ("autoFilledFields" ∉ keys df) /\
      ("autoFilledFields" ∈ keys (table pf) -> keys df <> keys (table pf))) /\
  (forall columns,
      skip = true \/ (forall c, c ∈ columns -> c ∈ keys (table pf)) ->
      exists df,
        read_parquet_s3 s3_bucket path (Some columns) skip w = (inr df, w') /\
        keys df = filter (fun c => c ∈ keys (table pf)) columns /\
        ("autoFilledFields" ∈ columns -> "autoFilledFields" ∈ keys (table pf) ->
         "autoFilledFields" ∈ keys df)).
Proof.
  intros Hb Hp Hs Hfs Hopen.
  assert (Hrun : forall columns,
    read_parquet_s3 s3_bucket path columns skip w =
    bind (match columns with
          | Some columns =>
              if (negb (bool_decide (missing_columns_of pf columns = []))
                  && negb skip)%bool
              then raise (ValueError "Missing columns in {path}: {missing_columns}")
              else ret (filter (fun c => c ∉ missing_columns_of pf columns) columns)
          | None =>
              ret (filter (fun c => c ≠ "autoFilledFields") (keys (dtypes pf)))
          end)
         (fun columns => lift (to_pandas pf columns)) w').
  { intros columns. unfold read_parquet_s3. rewrite Hb, Hp, Hs. simpl.
    unfold bind at 1 2 3. simpl. rewrite (bind_returned _ _ w w0 tt Hfs).
    now rewrite (bind_returned _ _ w0 w' pf Hopen). }
  split.
  - rewrite Hrun, keys_dtypes.
    destruct (to_pandas_returns pf
                (filter (fun c => c ≠ "autoFilledFields") (keys (table pf))))
      as (df & Hdf & Hkeys).
    { intros c Hc. now apply list_elem_of_filter in Hc. }
    exists df. unfold bind, ret, lift. rewrite Hdf.
    assert (Hout : "autoFilledFields" ∉ keys df).
    { rewrite Hkeys, list_elem_of_filter. tauto. }
    repeat split; [exact Hkeys|exact Hout|].
    intros Hin Heq. apply Hout. now rewrite Heq.
  - intros columns Hcols. rewrite Hrun.
    assert (Hret :
      (if (negb (bool_decide (missing_columns_of pf columns = [])) && negb skip)%bool
       then raise (ValueError "Missing columns in {path}: {missing_columns}")
       else ret (filter (fun c => c ∉ missing_columns_of pf columns) columns))
      = (ret (filter (fun c => c ∈ keys (table pf)) columns) : M W (list string))).
    { rewrite requested_columns. destruct Hcols as [->|Hall].
      - now rewrite andb_false_r.
      - rewrite bool_decide_eq_true_2; [reflexivity|].
        rewrite missing_columns_of_filter.
        induction columns as [|c cs IH]; [reflexivity|].
        rewrite filter_cons_False by (intros Hn; apply Hn, Hall; left).
        apply IH. intros c' Hc'. apply Hall. now right. }
    rewrite Hret.
    destruct (to_pandas_returns pf (filter (fun c => c ∈ keys (table pf)) columns))
      as (df & Hdf & Hkeys).
    { intros c Hc. now apply list_elem_of_filter in Hc. }
    exists df. unfold bind, ret, lift. rewrite Hdf.
    repeat split; [exact Hkeys|].
    intros Hin Hfile. rewrite Hkeys. apply list_elem_of_filter. now split.
Qed.

End ParquetColumns.

(** ** read_csv_s3 on a compression it does not know *)

Section CsvCompression.
Context {DataFrame : Type} `{Pandas DataFrame}.

(** C10, as amended. With a compression that is neither [None] nor
    ['gzip'], [read_csv_s3] sends the store no request and changes no
    object; when the bucket holds no ["/"] and the path does not start with
    one, it raises nothing: it prints its message and returns [None];
    otherwise the assertion that fails raises [AssertionError], with the
    world untouched. *)
Theorem read_csv_unknown_compression (s3_bucket path sep c : string)
    (kwargs : list (string * string)) (w : World) :
  c <> "gzip" ->
  let out :=
    read_csv_s3 (DataFrame := DataFrame) s3_bucket path sep (Some c) kwargs w in
  requests (snd out) = requests w /\
  objects (snd out) = objects w /\
  if (negb (contains "/" s3_bucket) && negb (startswith path "/"))%bool
  then out = (inr None,
              {| objects := objects w; requests := requests w;
                 stdout := stdout w ++ [compression_message c] |})
  else out = (inl AssertionError, w).
Proof.
  intros Hc out. unfold out, read_csv_s3.
  rewrite (bool_decide_eq_false_2 (Some c = Some "gzip")) by congruence.
  rewrite (bool_decide_eq_false_2 (Some c = None)) by congruence.
  destruct (contains "/" s3_bucket); simpl; [now repeat split|].
  destruct (startswith path "/"); simpl; now repeat split.
Qed.

End CsvCompression.

(** ** The pickle fragment *)

(** The fragment reads back what it writes. *)
Lemma pickle_fragment_roundtrip (o : pyobj) (bs : bytes) :
  pickle_dumps o = inr bs -> pickle_loads bs = inr o.
Proof. destruct o as [|[|]|n|]; intros [= <-]; reflexivity. Qed.

Lemma pickle_fragment_serializable (o : pyobj) :
  o <> PyLambda -> serializable o.
Proof.
  intros Ho. destruct (pickle_dumps o) as [e|bs] eqn:Hd.
  - destruct o as [|[|]|n|]; try discriminate. contradiction.
  - exists bs. split; [exact Hd|]. now apply pickle_fragment_roundtrip.
Qed.

(** ** The statements at work *)

Lemma dump_load_roundtrip_witness :
  serializable (PyInt x07) /\
  exists w1 w2,
    PickleS3.dump models (PyInt x07) "m.pkl" empty_world = (inr tt, w1) /\
    PickleS3.load models "m.pkl" w1 = (inr (PyInt x07), w2).
Proof.
  assert (Hs : serializable (PyInt x07)).
  { exists [x80; x04; x4b; x07; x2e]. split; reflexivity. }
  split; [exact Hs|].
  exact (dump_load_roundtrip models (PyInt x07) "m.pkl" empty_world Hs).
Defined.

Lemma dump_overwrites_witness :
  serializable (PyBool true) /\ serializable (PyInt x07) /\
  exists w1 w2 w3,
    PickleS3.dump models (PyBool true) "m.pkl" empty_world = (inr tt, w1) /\
    PickleS3.dump models (PyInt x07) "m.pkl" w1 = (inr tt, w2) /\
    PickleS3.load models "m.pkl" w2 = (inr (PyInt x07), w3) /\
    (PyBool true <> PyInt x07 ->
     fst (PickleS3.load models "m.pkl" w2) <> inr (PyBool true)).
Proof.
  assert (H1 : serializable (PyBool true)).
  { exists [x80; x04; x88; x2e]. split; reflexivity. }
  assert (H2 : serializable (PyInt x07)).
  { exists [x80; x04; x4b; x07; x2e]. split; reflexivity. }
  split; [exact H1|]. split; [exact H2|].
  exact (dump_overwrites models (PyBool true) (PyInt x07) "m.pkl" empty_world H1 H2).
Defined.

Lemma load_never_written_witness :
  PickleS3.load (Obj := pyobj) models "lost.pkl"
    (PickleS3.world
       (PickleS3.run {| PickleS3.self := models; PickleS3.world := empty_world |}
          [PickleS3.Dump (PyInt x07) "m.pkl"; PickleS3.Load "m.pkl"]))
  = (inl NoSuchKey,
     served (GetObject "models" "lost.pkl")
       (PickleS3.world
          (PickleS3.run {| PickleS3.self := models; PickleS3.world := empty_world |}
             [PickleS3.Dump (PyInt x07) "m.pkl"; PickleS3.Load "m.pkl"]))).
Proof.
  apply (load_never_written models "lost.pkl"
           [PickleS3.Dump (PyInt x07) "m.pkl"; PickleS3.Load "m.pkl"] empty_world).
  - reflexivity.
  - intros model Hin.
    apply elem_of_cons in Hin as [Hin|Hin]; [discriminate|].
    apply elem_of_cons in Hin as [Hin|Hin]; [discriminate|].
    now apply elem_of_nil in Hin.
Defined.

Lemma errors_propagate_witness :
  PickleS3.dump models (PyInt x07) "m.pkl" bad_link
  = (inl EndpointConnectionError, {| base := stocked; faults := [None] |}) /\
  PickleS3.load (Obj := pyobj) models "lost.pkl" stocked
  = (inl NoSuchKey, served (GetObject "models" "lost.pkl") stocked) /\
  PickleS3.dump models PyLambda "m.pkl" stocked = (inl PicklingError, stocked).
Proof.
  split; [|split].
  - apply (proj1 (errors_propagate models bad_link)).
    eapply dump_stops_put; reflexivity.
  - apply (proj2 (errors_propagate models stocked)).
    eapply load_stops_get; reflexivity.
  - apply (proj1 (errors_propagate models stocked)).
    apply dump_stops_pickling. reflexivity.
Defined.

Lemma dump_frame_witness :
  pk_dump (PyInt x07) = inr [x80; x04; x4b; x07; x2e] /\
  (exists w',
      PickleS3.dump models (PyInt x07) "new.pkl" stocked = (inr tt, w') /\
      requests w' =
        (requests stocked ++ [PutObject "models" "new.pkl" [x80; x04; x4b; x07; x2e]])%list /\
      puts (requests w') = S (puts (requests stocked)) /\
      objects w' = <[("models", "new.pkl") := [x80; x04; x4b; x07; x2e]]> (objects stocked)) /\
  objects (snd (PickleS3.dump models (PyInt x07) "new.pkl" stocked)) !! ("models", "m.pkl")
  = objects stocked !! ("models", "m.pkl").
Proof.
  pose proof (dump_frame models (PyInt x07) "new.pkl" stocked) as (Hframe & Hput & _).
  split; [reflexivity|]. split.
  - apply Hput. reflexivity.
  - apply Hframe. discriminate.
Defined.

Lemma read_parquet_columns_witness :
  exists df,
    read_parquet_s3 "lake" "events.parquet" None false lake = (inr df, lake) /\
    keys df = ["user"; "amount"] /\
    ("autoFilledFields" ∉ keys df) /\
    keys df <> keys (table events_parquet).
Proof.
  destruct (read_parquet_columns "lake" "events.parquet" false lake lake lake
              events_parquet)
    as [(df & Hrun & Hkeys & Hout & Hless) _]; try reflexivity.
  exists df. repeat split; [exact Hrun|exact Hkeys|exact Hout|].
  apply Hless. right. left.
Defined.

Lemma read_csv_unknown_compression_witness :
  "bz2" <> "gzip" /\
  read_csv_s3 (DataFrame := bytes) "logs" "day.csv.bz2" "," (Some "bz2") [] stocked
  = (inr None,
     {| objects := objects stocked; requests := requests stocked;
        stdout := [compression_message "bz2"] |}).
Proof.
  assert (Hc : "bz2" <> "gzip") by discriminate.
  split; [exact Hc|].
  exact (proj2 (proj2 (read_csv_unknown_compression (DataFrame := bytes)
                         "logs" "day.csv.bz2" "," "bz2" [] stocked Hc))).
Defined.

(** ** Where the statements of the specification stop *)

(** An empty bucket name is accepted: [PickleS3("")] returns an instance. *)
Lemma init_accepts_empty_bucket :
  PickleS3.__init__ (Some "") empty_world
  = (inr {| PickleS3.bucket := "" |}, empty_world).
Proof. reflexivity. Qed.

(** A [dump] of a lambda makes no put: the serializer raises first. *)
Lemma dump_lambda_makes_no_put :
  PickleS3.dump models PyLambda "m.pkl" empty_world = (inl PicklingError, empty_world) /\
  puts (requests (snd (PickleS3.dump models PyLambda "m.pkl" empty_world))) = 0.
Proof. split; reflexivity. Qed.

(** [load] fetches no metadata: the one request it sends is the get of the
    body, which here follows the put that stocked the world. *)
Lemma load_fetches_no_metadata :
  PickleS3.load (Obj := pyobj) models "m.pkl" stocked
  = (inr (PyInt x07),
     {| objects := objects stocked;
        requests := [PutObject "models" "m.pkl" [x80; x04; x4b; x07; x2e];
                     GetObject "models" "m.pkl"];
        stdout := [] |}).
Proof. reflexivity. Qed.

(** With a ["/"] in the bucket name [read_csv_s3] raises, whatever the
    compression. *)
Lemma read_csv_asserts_first :
  "bz2" <> "gzip" /\
  read_csv_s3 (DataFrame := bytes) "a/b" "day.csv" "," (Some "bz2") [] empty_world
  = (inl AssertionError, empty_world).
Proof. split; [discriminate|reflexivity]. Qed.

(** ** Further runs *)

(** The put that fails on a bad link is not tried again: the schedule still
    holds the entry that would have let a second attempt through, and the
    store has served no further request. *)
Example dump_is_not_retried :
  let '(r, f) := PickleS3.dump models (PyInt x07) "m.pkl" bad_link in
  r = inl EndpointConnectionError /\ faults f = [None] /\ base f = stocked.
Proof. repeat split. Qed.

(** Building the resource and the handles costs no request: [load] meets
    the refusal at its get, and passes it on. *)
Example load_access_denied :
  PickleS3.load (Obj := pyobj) models "m.pkl" locked
  = (inl AccessDenied, {| base := stocked; faults := [] |}).
Proof. reflexivity. Qed.

(** Bytes that are no pickle: [load] raises the deserializer's error. *)
Example load_garbage :
  fst (PickleS3.load (Obj := pyobj) models "m.pkl"
         (snd (store_put "models" "m.pkl" [x00] empty_world)))
  = inl UnpicklingError.
Proof. reflexivity. Qed.

(** A listed ["autoFilledFields"] column is returned. *)
Example read_parquet_listed :
  fst (read_parquet_s3 "lake" "events.parquet"
         (Some ["autoFilledFields"; "user"]) false lake)
  = inr [("autoFilledFields", {| dtype := "object"; values := [0; 0]%Z |});
         ("user", {| dtype := "int64"; values := [1; 2]%Z |})].
Proof. reflexivity. Qed.

(** * The rest of the module *)

(** ** Slashes, prefixes and suffixes *)

Lemma prefix_slash_cons (c : ascii) (s : string) :
  String.prefix "/" (String c s) = Ascii.eqb c "/".
Proof.
  change (String.prefix "/" (String c s))
    with (if ascii_dec "/" c then String.prefix "" s else false).
  destruct (ascii_dec "/" c) as [<-|Hne].
  - destruct s; reflexivity.
  - symmetry. apply Ascii.eqb_neq. congruence.
Qed.

Lemma contains_slash_cons (c : ascii) (s : string) :
  contains "/" (String c s) = (Ascii.eqb c "/" || contains "/" s)%bool.
Proof.
  unfold contains.
  change (String.index 0 "/" (String c s))
    with (if String.prefix "/" (String c s) then Some 0
          else match String.index 0 "/" s with
               | Some n => Some (S n)
               | None => None
               end).
  rewrite prefix_slash_cons.
  destruct (Ascii.eqb c "/"); [reflexivity|].
  now destruct (String.index 0 "/" s).
Qed.

Lemma startswith_slash_cons (c : ascii) (s : string) :
  startswith (String c s) "/" = Ascii.eqb c "/".
Proof. apply prefix_slash_cons. Qed.

Lemma append_cons (x : ascii) (a b : string) : String x a ++ b = String x (a ++ b).
Proof. reflexivity. Qed.

Lemma append_assoc (a b c : string) : (a ++ b) ++ c = a ++ (b ++ c).
Proof.
  induction a as [|x a IH]; [reflexivity|]. now rewrite !append_cons, IH.
Qed.

Lemma append_nil_r (a : string) : a ++ "" = a.
Proof. induction a as [|x a IH]; [reflexivity|]. now rewrite append_cons, IH. Qed.

Lemma rev_app_append (s acc : string) :
  String.rev_app s acc = String.rev s ++ acc.
Proof.
  unfold String.rev. revert acc.
  induction s as [|c s IH]; intros acc; [reflexivity|].
  change (String.rev_app (String c s) acc) with (String.rev_app s (String c acc)).
  change (String.rev_app (String c s) "") with (String.rev_app s (String c "")).
  rewrite (IH (String c acc)), (IH (String c "")), append_assoc. reflexivity.
Qed.

Lemma rev_app_app (a b acc : string) :
  String.rev_app (a ++ b) acc = String.rev_app b (String.rev_app a acc).
Proof.
  revert acc. induction a as [|c a IH]; intros acc; [reflexivity|].
  rewrite append_cons. apply (IH (String c acc)).
Qed.

Lemma rev_append (a b : string) : String.rev (a ++ b) = String.rev b ++ String.rev a.
Proof. unfold String.rev at 1. now rewrite rev_app_app, rev_app_append. Qed.

Lemma prefix_append (a b c : string) :
  String.prefix a b = true -> String.prefix a (b ++ c) = true.
Proof.
  revert b. induction a as [|x a IH]; intros b.
  - intros _. destruct (b ++ c); reflexivity.
  - destruct b as [|y b]; [discriminate|]. rewrite append_cons.
    change (String.prefix (String x a) (String y b))
      with (if ascii_dec x y then String.prefix a b else false).
    change (String.prefix (String x a) (String y (b ++ c)))
      with (if ascii_dec x y then String.prefix a (b ++ c) else false).
    destruct (ascii_dec x y); [apply IH|discriminate].
Qed.

Lemma endswith_append (a b p : string) :
  endswith b p = true -> endswith (a ++ b) p = true.
Proof. unfold endswith. rewrite rev_append. apply prefix_append. Qed.

Lemma contains_slash_snoc (t : string) (c : ascii) :
  contains "/" (t ++ String c "") = (contains "/" t || Ascii.eqb c "/")%bool.
Proof.
  induction t as [|d t IH].
  - change ("" ++ String c "") with (String c ""). rewrite contains_slash_cons.
    now rewrite orb_comm.
  - now rewrite append_cons, !contains_slash_cons, IH, orb_assoc.
Qed.

Lemma contains_slash_rev (s : string) : contains "/" (String.rev s) = contains "/" s.
Proof.
  induction s as [|c s IH]; [reflexivity|].
  change (String c s) with (String c "" ++ s) at 1.
  rewrite rev_append. change (String.rev (String c "")) with (String c "").
  now rewrite contains_slash_snoc, contains_slash_cons, IH, orb_comm.
Qed.

Lemma no_slash_endswith (a : string) :
  contains "/" a = false -> endswith a "/" = false.
Proof.
  intros Ha. unfold endswith. rewrite <- contains_slash_rev in Ha.
  change (String.rev "/") with "/".
  destruct (String.rev a) as [|c t]; [reflexivity|].
  rewrite contains_slash_cons in Ha. apply orb_false_elim in Ha as [Hc _].
  change (String.prefix "/" (String c t)) with (startswith (String c t) "/").
  now rewrite startswith_slash_cons.
Qed.

Lemma os_path_join_guarded (b p : string) :
  contains "/" b = false -> startswith p "/" = false ->
  os_path_join b p = if String.eqb b "" then p else b ++ "/" ++ p.
Proof.
  intros Hb Hp. unfold os_path_join. rewrite Hp, (no_slash_endswith b Hb).
  destruct (String.eqb_spec b "") as [->|]; reflexivity.
Qed.

Lemma slash_split_unique (b1 b2 p1 p2 : string) :
  contains "/" b1 = false -> contains "/" b2 = false ->
  b1 ++ "/" ++ p1 = b2 ++ "/" ++ p2 -> b1 = b2 /\ p1 = p2.
Proof.
  revert b2. induction b1 as [|c b1 IH]; intros [|d b2] H1 H2 Heq;
    rewrite ?append_cons in Heq; change ("" ++ "/" ++ p1) with (String "/" p1) in Heq;
    change ("" ++ "/" ++ p2) with (String "/" p2) in Heq.
  - now injection Heq.
  - injection Heq as <- _. now rewrite contains_slash_cons in H2.
  - injection Heq as -> _. now rewrite contains_slash_cons in H1.
  - injection Heq as -> Heq. rewrite contains_slash_cons in H1, H2.
    apply orb_false_elim in H1 as [_ H1]. apply orb_false_elim in H2 as [_ H2].
    destruct (IH b2 H1 H2 Heq) as [-> ->]. now split.
Qed.

(** ** read_csv_s3 and write_csv_s3 *)

Section CsvOverAnyStore.
Context {W Frame : Type} `{ObjectStore W} `{Console W} `{Pandas Frame}.

(** The assertions of [read_csv_s3] come first: past the two on the bucket
    and the path, the function goes on by compression. *)
Lemma read_csv_asserts (s3_bucket path sep : string)
    (compression : option string) (kwargs : list (string * string)) (w : W) :
  read_csv_s3 (DataFrame := Frame) s3_bucket path sep compression kwargs w
  = if (negb (contains "/" s3_bucket) && negb (startswith path "/"))%bool
    then
      (if bool_decide (compression = Some "gzip") then
         py_assert (endswith path ".csv.gz") ;;;
         boto3_client "s3" ;;;
         body <- client_get_object_Body_read s3_bucket path ;;
         df <- lift (pd_read_csv body sep (Some "gzip") kwargs) ;;
         ret (Some df)
       else if bool_decide (compression = None) then
         py_assert (endswith path ".csv") ;;;
         boto3_client "s3" ;;;
         body <- client_get_object_Body_read s3_bucket path ;;
         df <- lift (pd_read_csv body sep None kwargs) ;;
         ret (Some df)
       else
         print (compression_message (py_str compression)) ;;;
         ret None) w
    else (inl AssertionError, w).
Proof.
  unfold read_csv_s3.
  destruct (contains "/" s3_bucket); [reflexivity|].
  destruct (startswith path "/"); reflexivity.
Qed.

(** X1. An argument that fails one of the assertions of [read_csv_s3] (a ["/"]
    in the bucket name, a path that starts with ["/"], a path without the
    extension of the compression asked for: [".csv"] for none, [".csv.gz"]
    for gzip) makes it raise [AssertionError] before anything else happens:
    the world is as it was. *)
Theorem read_csv_guard_fails (s3_bucket path sep : string)
    (compression : option string) (kwargs : list (string * string)) (w : W) :
  csv_guard s3_bucket path compression = false ->
  read_csv_s3 (DataFrame := Frame) s3_bucket path sep compression kwargs w
  = (inl AssertionError, w).
Proof.
  unfold csv_guard, csv_extension_ok. intros Hg. rewrite read_csv_asserts.
  destruct (negb (contains "/" s3_bucket) && negb (startswith path "/"))%bool;
    [|reflexivity].
  simpl in Hg.
  destruct (bool_decide (compression = Some "gzip")).
  { unfold bind at 1. now rewrite Hg. }
  destruct (bool_decide (compression = None)); [|discriminate].
  unfold bind at 1. now rewrite Hg.
Qed.

(** X2. [read_csv_s3] gives back [None] for an unknown compression only: when
    it returns [None], the compression asked for is neither none nor gzip.
    With a compression it knows it returns a frame or raises. *)
Theorem read_csv_none_only_unknown (s3_bucket path sep : string)
    (compression : option string) (kwargs : list (string * string)) (w : W) :
  fst (read_csv_s3 (DataFrame := Frame) s3_bucket path sep compression kwargs w)
  = inr None ->
  compression <> None /\ compression <> Some "gzip".
Proof.
  unfold read_csv_s3, bind, lift, ret.
  destruct (py_assert (negb (contains "/" s3_bucket)) w) as [[e|[]] w1];
    [discriminate|].
  destruct (py_assert (negb (startswith path "/")) w1) as [[e|[]] w2];
    [discriminate|].
  destruct (bool_decide (compression = Some "gzip")) eqn:Hgz.
  { destruct (py_assert (endswith path ".csv.gz") w2) as [[e|[]] w3]; [discriminate|].
    destruct (boto3_client "s3" w3) as [[e|[]] w4]; [discriminate|].
    destruct (client_get_object_Body_read s3_bucket path w4) as [[e|body] w5];
      [discriminate|].
    destruct (pd_read_csv body sep (Some "gzip") kwargs); discriminate. }
  destruct (bool_decide (compression = None)) eqn:Hno.
  { destruct (py_assert (endswith path ".csv") w2) as [[e|[]] w3]; [discriminate|].
    destruct (boto3_client "s3" w3) as [[e|[]] w4]; [discriminate|].
    destruct (client_get_object_Body_read s3_bucket path w4) as [[e|body] w5];
      [discriminate|].
    destruct (pd_read_csv body sep None kwargs); discriminate. }
  intros _. apply bool_decide_eq_false in Hgz, Hno. now split.
Qed.

End CsvOverAnyStore.

Section CsvOnTheMapStore.
Context {Frame : Type} `{Pandas Frame} `{PandasCsvWriter Frame}.
Implicit Types (w : World) (data : Frame) (kwargs : list (string * string)).

(** [read_csv_s3] past its assertions, on the map store: one get request,
    then pandas on the body. *)
Lemma read_csv_map (s3_bucket path sep : string) (compression : option string)
    kwargs w :
  csv_guard s3_bucket path compression = true ->
  compression = None \/ compression = Some "gzip" ->
  read_csv_s3 (DataFrame := Frame) s3_bucket path sep compression kwargs w
  = (match objects w !! (s3_bucket, path) with
     | None => inl NoSuchKey
     | Some body =>
         match pd_read_csv body sep compression kwargs with
         | inl e => inl e
         | inr df => inr (Some df)
         end
     end,
     served (GetObject s3_bucket path) w).
Proof.
  unfold csv_guard, csv_extension_ok, read_csv_s3. intros Hg Hc.
  apply andb_prop in Hg as [Hg Hext]. apply andb_prop in Hg as [Hb Hp].
  rewrite Hb, Hp. unfold bind at 1. simpl. unfold bind at 1. simpl.
  destruct Hc as [-> | ->]; simpl in *; rewrite Hext;
    unfold bind, lift, store_get; simpl;
    destruct (objects w !! (s3_bucket, path)) as [body|]; try reflexivity.
  - destruct (pd_read_csv body sep None kwargs); reflexivity.
  - destruct (pd_read_csv body sep (Some "gzip") kwargs); reflexivity.
Qed.

(** X3. [read_csv_s3] only reads: whatever its arguments, the stored objects
    are as they were, and the store has served either no request or the one
    get of (bucket, path). *)
Theorem read_csv_reads_only (s3_bucket path sep : string)
    (compression : option string) kwargs w :
  let w' :=
    snd (read_csv_s3 (DataFrame := Frame) s3_bucket path sep compression kwargs w) in
  objects w' = objects w /\
  (requests w' = requests w \/
   requests w' = (requests w ++ [GetObject s3_bucket path])%list).
Proof.
  intros w'. subst w'. rewrite read_csv_asserts.
  destruct (negb (contains "/" s3_bucket) && negb (startswith path "/"))%bool;
    [|now split; [|left]].
  assert (Hget : forall (k : bytes -> M World (option Frame)) (b : bool),
    (forall body w1, snd (k body w1) = w1) ->
    let w' := snd (bind (py_assert b)
                     (fun _ => bind (boto3_client "s3")
                        (fun _ => bind (client_get_object_Body_read s3_bucket path) k))
                     w) in
    objects w' = objects w /\
    (requests w' = requests w \/
     requests w' = (requests w ++ [GetObject s3_bucket path])%list)).
  { intros k b Hk. destruct b; [|now split; [|left]].
    unfold bind, store_get; simpl. unfold store_get.
    destruct (objects w !! (s3_bucket, path)) as [body|]; [|now split; [|right]].
    pose proof (Hk body (served (GetObject s3_bucket path) w)) as Hw.
    destruct (k body (served (GetObject s3_bucket path) w)) as [[e|df] w1];
      simpl in *; subst w1; now split; [|right]. }
  destruct (bool_decide (compression = Some "gzip")).
  { apply Hget. intros body w1. unfold bind, lift, ret.
    now destruct (pd_read_csv body sep (Some "gzip") kwargs). }
  destruct (bool_decide (compression = None)).
  { apply Hget. intros body w1. unfold bind, lift, ret.
    now destruct (pd_read_csv body sep None kwargs). }
  now split; [|left].
Qed.

Lemma write_csv_returns (s3_bucket path text : string) data kwargs w :
  to_csv data kwargs = inr text ->
  write_csv_s3 s3_bucket path data kwargs w
  = (inr tt,
     {| objects := <[(s3_bucket, path) := utf8_bytes text]> (objects w);
        requests := requests w ++ [PutObject s3_bucket path (utf8_bytes text)];
        stdout := stdout w |}).
Proof.
  intros Ht. unfold write_csv_s3. now rewrite (bind_lift_returned _ _ w text Ht).
Qed.

(** X5. [write_csv_s3] checks nothing: for every bucket and path, when pandas
    renders the frame the text is put at (bucket, path) in one request, and
    when pandas raises nothing is sent. *)
Theorem write_csv_frame (s3_bucket path : string) data kwargs w :
  (forall e, to_csv data kwargs = inl e ->
     write_csv_s3 s3_bucket path data kwargs w = (inl e, w)) /\
  (forall text, to_csv data kwargs = inr text ->
     write_csv_s3 s3_bucket path data kwargs w
     = (inr tt,
        {| objects := <[(s3_bucket, path) := utf8_bytes text]> (objects w);
           requests := requests w ++ [PutObject s3_bucket path (utf8_bytes text)];
           stdout := stdout w |})).
Proof.
  split.
  - intros e He. unfold write_csv_s3. now apply bind_lift_raised.
  - intros text. apply write_csv_returns.
Qed.

(** X6. Write, then read: a frame written to a path that ends in [".csv"], in
    a bucket and at a path [read_csv_s3] accepts, is read back as what
    pandas parses from the text pandas wrote. *)
Theorem write_then_read_csv (s3_bucket path sep text : string) data (data' : Frame)
    kwargs kwargs' w :
  csv_guard s3_bucket path None = true ->
  to_csv data kwargs = inr text ->
  pd_read_csv (utf8_bytes text) sep None kwargs' = inr data' ->
  exists w1 w2,
    write_csv_s3 s3_bucket path data kwargs w = (inr tt, w1) /\
    read_csv_s3 s3_bucket path sep None kwargs' w1 = (inr (Some data'), w2).
Proof.
  intros Hg Ht Hr. eexists _, _. split.
  - apply write_csv_returns, Ht.
  - rewrite read_csv_map by (auto; exact Hg). simpl.
    rewrite lookup_insert_eq, Hr. reflexivity.
Qed.

(** X7. What [write_csv_s3] accepts [read_csv_s3] may refuse: a frame written
    where an assertion of [read_csv_s3] fails is stored, and reading it back
    raises [AssertionError]. *)
Theorem write_csv_unreadable (s3_bucket path sep text : string)
    (compression : option string) data kwargs kwargs' w :
  csv_guard s3_bucket path compression = false ->
  to_csv data kwargs = inr text ->
  exists w1,
    write_csv_s3 s3_bucket path data kwargs w = (inr tt, w1) /\
    objects w1 !! (s3_bucket, path) = Some (utf8_bytes text) /\
    read_csv_s3 (DataFrame := Frame) s3_bucket path sep compression kwargs' w1
    = (inl AssertionError, w1).
Proof.
  intros Hg Ht. eexists. split.
  - apply write_csv_returns, Ht.
  - split; [apply lookup_insert_eq|].
    unfold csv_guard, csv_extension_ok in Hg. rewrite read_csv_asserts.
    destruct (negb (contains "/" s3_bucket) && negb (startswith path "/"))%bool;
      [|reflexivity].
    simpl in Hg.
    destruct (bool_decide (compression = Some "gzip")).
    { unfold bind at 1. now rewrite Hg. }
    destruct (bool_decide (compression = None)); [|discriminate].
    unfold bind at 1. now rewrite Hg.
Qed.

End CsvOnTheMapStore.

(** X4. A known compression and a missing object: [read_csv_s3] raises the
    store's [NoSuchKey] error after its one get request; it gives back no
    frame and no [None]. *)
Theorem read_csv_missing_key {Frame : Type} `{Pandas Frame}
    (s3_bucket path sep : string) (compression : option string)
    (kwargs : list (string * string)) (w : World) :
  csv_guard s3_bucket path compression = true ->
  compression = None \/ compression = Some "gzip" ->
  objects w !! (s3_bucket, path) = None ->
  read_csv_s3 (DataFrame := Frame) s3_bucket path sep compression kwargs w
  = (inl NoSuchKey, served (GetObject s3_bucket path) w).
Proof. intros Hg Hc Hk. rewrite read_csv_map by assumption. now rewrite Hk. Qed.

(** ** read_parquet_s3 and write_parquet_s3 *)

Lemma file_guard_true (ext s3_bucket path : string) :
  file_guard ext s3_bucket path = true ->
  contains "/" s3_bucket = false /\ startswith path "/" = false /\
  endswith path ext = true.
Proof.
  unfold file_guard. intros Hg.
  apply andb_prop in Hg as [Hg He]. apply andb_prop in Hg as [Hb Hp].
  apply negb_true_iff in Hb, Hp. auto.
Qed.

Lemma startswith_after_bucket (b t : string) :
  b <> "" -> contains "/" b = false -> startswith (b ++ t) "/" = false.
Proof.
  destruct b as [|c b]; [congruence|]. intros _ Hb.
  rewrite append_cons, startswith_slash_cons.
  rewrite contains_slash_cons in Hb. now apply orb_false_elim in Hb as [Hc _].
Qed.

Section ParquetGuards.
Context {W : Type} `{Fastparquet W} `{FastparquetWriter W}.

Lemma read_parquet_asserts (s3_bucket path : string)
    (columns : option (list string)) (skip : bool) (w : W) :
  file_guard ".parquet" s3_bucket path = false ->
  read_parquet_s3 s3_bucket path columns skip w = (inl AssertionError, w).
Proof.
  unfold file_guard, read_parquet_s3. intros Hg.
  destruct (contains "/" s3_bucket); [reflexivity|].
  destruct (startswith path "/"); [reflexivity|].
  simpl in Hg. unfold bind at 1. simpl. unfold bind at 1. simpl.
  unfold bind at 1. now rewrite Hg.
Qed.

Lemma write_parquet_asserts (s3_bucket path : string) (data : DataFrame)
    (compression : option string) (w : W) :
  file_guard ".parquet" s3_bucket path = false ->
  write_parquet_s3 s3_bucket path data compression w = (inl AssertionError, w).
Proof.
  unfold file_guard, write_parquet_s3. intros Hg.
  destruct (contains "/" s3_bucket); [reflexivity|].
  unfold bind at 1. simpl.
  destruct (endswith path ".parquet"); [|reflexivity].
  unfold bind at 1. simpl.
  destruct (startswith path "/"); [reflexivity|discriminate].
Qed.

(** Past its assertions [write_parquet_s3] opens the file system and writes
    at the joined path. *)
Lemma write_parquet_past_asserts (s3_bucket path : string) (data : DataFrame)
    (compression : option string) (w : W) :
  file_guard ".parquet" s3_bucket path = true ->
  write_parquet_s3 s3_bucket path data compression w
  = bind S3FileSystem
      (fun _ => fastparquet_write (os_path_join s3_bucket path) data compression true) w.
Proof.
  intros Hg. apply file_guard_true in Hg as (Hb & Hp & He).
  unfold write_parquet_s3. now rewrite Hb, He, Hp.
Qed.

(** X8. [read_parquet_s3] and [write_parquet_s3] make the same three
    assertions, in different orders: a bucket name with a ["/"], a path
    that starts with ["/"] or one that does not end in [".parquet"] makes
    either raise [AssertionError] before the file system is touched. *)
Theorem parquet_guard_fails (s3_bucket path : string)
    (columns : option (list string)) (skip : bool) (data : DataFrame)
    (compression : option string) (w : W) :
  file_guard ".parquet" s3_bucket path = false ->
  read_parquet_s3 s3_bucket path columns skip w = (inl AssertionError, w) /\
  write_parquet_s3 s3_bucket path data compression w = (inl AssertionError, w).
Proof.
  intros Hg. split; [now apply read_parquet_asserts|now apply write_parquet_asserts].
Qed.

(** X9. For arguments that pass the assertions, [write_parquet_s3] writes the
    frame, with its index, at the s3fs path [bucket/path] (at [path] itself
    when the bucket name is empty), once the file system is open. *)
Theorem write_parquet_path (s3_bucket path : string) (data : DataFrame)
    (compression : option string) (w : W) :
  file_guard ".parquet" s3_bucket path = true ->
  write_parquet_s3 s3_bucket path data compression w
  = bind S3FileSystem
      (fun _ =>
         fastparquet_write
           (if String.eqb s3_bucket "" then path else s3_bucket ++ "/" ++ path)
           data compression true) w.
Proof.
  intros Hg. rewrite write_parquet_past_asserts by exact Hg.
  apply file_guard_true in Hg as (Hb & Hp & _).
  now rewrite os_path_join_guarded.
Qed.

(** X10. An empty bucket name passes the assertions, and then the first
    component of the path is the bucket: reading (or writing) [b/p] in the
    bucket [""] is reading (or writing) [p] in the bucket [b]. *)
Theorem parquet_empty_bucket (b p : string) (columns : option (list string))
    (skip : bool) (data : DataFrame) (compression : option string) (w : W) :
  b <> "" ->
  file_guard ".parquet" b p = true ->
  read_parquet_s3 "" (b ++ "/" ++ p) columns skip w
  = read_parquet_s3 b p columns skip w /\
  write_parquet_s3 "" (b ++ "/" ++ p) data compression w
  = write_parquet_s3 b p data compression w.
Proof.
  intros Hne Hg. pose proof Hg as Hg'.
  apply file_guard_true in Hg' as (Hb & Hp & He).
  assert (Hs : startswith (b ++ "/" ++ p) "/" = false)
    by now apply startswith_after_bucket.
  assert (He' : endswith (b ++ "/" ++ p) ".parquet" = true).
  { apply endswith_append. change ("/" ++ p) with (String "/" "" ++ p).
    now apply endswith_append. }
  assert (Hj : os_path_join "" (b ++ "/" ++ p) = os_path_join b p).
  { rewrite (os_path_join_guarded b p Hb Hp).
    rewrite (proj2 (String.eqb_neq b "")) by exact Hne.
    unfold os_path_join. now rewrite Hs. }
  split.
  - unfold read_parquet_s3. change (contains "/" "") with false.
    now rewrite Hs, He', Hb, Hp, He, Hj.
  - rewrite (write_parquet_past_asserts b p) by exact Hg.
    rewrite (write_parquet_past_asserts "" (b ++ "/" ++ p)).
    + now rewrite Hj.
    + unfold file_guard. change (contains "/" "") with false. now rewrite Hs, He'.
Qed.

(** X11. A requested column that the file lacks, with missing columns not to be
    skipped: [read_parquet_s3] raises [ValueError] once the file is open,
    its message the text of the source as written (the braces are not
    filled in). *)
Theorem read_parquet_missing_columns (s3_bucket path c : string)
    (columns : list string) (w w0 w' : W) (pf : ParquetFile) :
  file_guard ".parquet" s3_bucket path = true ->
  S3FileSystem w = (inr tt, w0) ->
  ParquetFile_open (os_path_join s3_bucket path) w0 = (inr pf, w') ->
  c ∈ columns -> c ∉ keys (table pf) ->
  read_parquet_s3 s3_bucket path (Some columns) false w
  = (inl (ValueError "Missing columns in {path}: {missing_columns}"), w').
Proof.
  intros Hg Hfs Hopen Hc Hmiss.
  apply file_guard_true in Hg as (Hb & Hp & He).
  unfold read_parquet_s3. rewrite Hb, Hp, He. simpl.
  unfold bind at 1 2 3. simpl. rewrite (bind_returned _ _ w w0 tt Hfs).
  rewrite (bind_returned _ _ w0 w' pf Hopen).
  rewrite bool_decide_eq_false_2; [reflexivity|].
  rewrite missing_columns_of_filter. intros Hnil.
  apply (filter_nil_not_elem_of _ _ c Hnil Hmiss Hc).
Qed.

End ParquetGuards.

(** ** read_excel_s3 *)

Section ExcelUrls.
Context {W Frame : Type} `{PandasExcel W Frame}.

(** X12. A bucket name with a ["/"], a path that starts with ["/"] or one that
    does not end in [".xlsx"] makes [read_excel_s3] raise [AssertionError]
    before pandas is called: the world is as it was. *)
Theorem read_excel_guard_fails (s3_bucket path : string) (w : W) :
  file_guard ".xlsx" s3_bucket path = false ->
  read_excel_s3 (Frame := Frame) s3_bucket path w = (inl AssertionError, w).
Proof.
  unfold file_guard, read_excel_s3. intros Hg.
  destruct (contains "/" s3_bucket); [reflexivity|].
  destruct (startswith path "/"); [reflexivity|].
  simpl in Hg. unfold bind at 1. simpl. unfold bind at 1. simpl.
  unfold bind at 1. now rewrite Hg.
Qed.

(** X13. Past its assertions [read_excel_s3] is pandas reading the URL
    [s3n://bucket/path], and that URL names one bucket and one path only:
    two calls that pass the assertions read the same URL only when they
    were given the same bucket and the same path. *)
Theorem read_excel_url (b1 p1 b2 p2 : string) (w : W) :
  file_guard ".xlsx" b1 p1 = true ->
  file_guard ".xlsx" b2 p2 = true ->
  read_excel_s3 (Frame := Frame) b1 p1 w
  = pd_read_excel ("s3n://" ++ b1 ++ "/" ++ p1) w /\
  ("s3n://" ++ b1 ++ "/" ++ p1 = "s3n://" ++ b2 ++ "/" ++ p2 ->
   b1 = b2 /\ p1 = p2).
Proof.
  intros Hg1 Hg2.
  apply file_guard_true in Hg1 as (Hb1 & Hp1 & He1).
  apply file_guard_true in Hg2 as (Hb2 & _ & _).
  split.
  - unfold read_excel_s3. now rewrite Hb1, Hp1, He1.
  - intros Hurl. apply (String.app_inj "s3n://") in Hurl.
    now apply slash_split_unique.
Qed.

End ExcelUrls.

(** ** PickleS3: what a key holds after a run of calls *)

Section MapStoreHistory.
Context {Obj : Type} `{Pickle Obj}.
Implicit Types (self : PickleS3.t) (o : Obj) (k : string) (w : World).

Lemma step_session self (c : PickleS3.call Obj) w :
  snd (PickleS3.step {| PickleS3.self := self; PickleS3.world := w |} c)
  = {| PickleS3.self := self;
       PickleS3.world := snd (PickleS3.invoke self c w) |}.
Proof.
  unfold PickleS3.step. simpl. now destruct (PickleS3.invoke self c w).
Qed.

(** One call moves the entry of [k] as [last_written] says. *)
Lemma invoke_entry self (c : PickleS3.call Obj) k w :
  objects (snd (PickleS3.invoke self c w)) !! (PickleS3.bucket self, k)
  = last_written k [c] (objects w !! (PickleS3.bucket self, k)).
Proof.
  rewrite invoke_world. destruct c as [model path|path]; simpl.
  - rewrite dump_map. destruct (String.eqb_spec path k) as [->|Hne].
    + destruct (pk_dump model) as [e|bs]; [reflexivity|].
      simpl. apply lookup_insert_eq.
    + destruct (pk_dump model) as [e|bs]; [reflexivity|].
      simpl. apply lookup_insert_ne. congruence.
  - now rewrite load_objects.
Qed.

Lemma last_written_cons k (c : PickleS3.call Obj) cs (entry : option bytes) :
  last_written k (c :: cs) entry = last_written k cs (last_written k [c] entry).
Proof.
  destruct c as [model path|path]; simpl; [|reflexivity].
  destruct (String.eqb path k); [|reflexivity].
  now destruct (pk_dump model).
Qed.

Lemma run_entry (cs : list (PickleS3.call Obj)) self k :
  forall w,
    objects (PickleS3.world
               (PickleS3.run {| PickleS3.self := self; PickleS3.world := w |} cs))
      !! (PickleS3.bucket self, k)
    = last_written k cs (objects w !! (PickleS3.bucket self, k)).
Proof.
  induction cs as [|c cs IH]; intros w; [reflexivity|].
  now rewrite run_cons, step_session, IH, invoke_entry, <- last_written_cons.
Qed.

(** X14. After any run of [dump] and [load] calls on an instance, a key of its
    bucket holds the bytes of the last [dump] to that key that the
    serializer accepted (what it held before, if there was none: a [dump]
    that raises and a [load] change nothing), and [load] gives the
    deserializer's reading of those bytes, or the store's [NoSuchKey]
    error when the key holds nothing. *)
Theorem load_after_run self k (cs : list (PickleS3.call Obj)) w :
  let w' := PickleS3.world
              (PickleS3.run {| PickleS3.self := self; PickleS3.world := w |} cs) in
  let entry := last_written k cs (objects w !! (PickleS3.bucket self, k)) in
  objects w' !! (PickleS3.bucket self, k) = entry /\
  PickleS3.load (Obj := Obj) self k w'
  = (match entry with
     | Some body => pk_loads body
     | None => inl NoSuchKey
     end,
     served (GetObject (PickleS3.bucket self) k) w').
Proof.
  intros w' entry. subst w' entry. split; [apply run_entry|].
  now rewrite load_map, run_entry.
Qed.

(** X15. Dumps to different keys do not depend on their order, and a dump made
    twice is the dump made once, as far as the stored objects go. *)
Theorem dumps_commute self o1 o2 k1 k2 w :
  (k1 <> k2 ->
   objects (snd (PickleS3.dump self o2 k2 (snd (PickleS3.dump self o1 k1 w))))
   = objects (snd (PickleS3.dump self o1 k1 (snd (PickleS3.dump self o2 k2 w))))) /\
  objects (snd (PickleS3.dump self o1 k1 (snd (PickleS3.dump self o1 k1 w))))
  = objects (snd (PickleS3.dump self o1 k1 w)).
Proof.
  rewrite !dump_map. split.
  - intros Hne. destruct (pk_dump o1) as [e1|bs1], (pk_dump o2) as [e2|bs2];
      simpl; try reflexivity.
    apply insert_insert_ne. congruence.
  - destruct (pk_dump o1) as [e1|bs1]; simpl; [reflexivity|].
    apply insert_insert_eq.
Qed.

End MapStoreHistory.

(** ** The statements of this part at work *)

Lemma read_csv_guard_fails_witness :
  csv_guard "logs" "day.csv.gz" None = false /\
  read_csv_s3 (DataFrame := bytes) "logs" "day.csv.gz" "," None [] stocked
  = (inl AssertionError, stocked).
Proof.
  assert (Hg : csv_guard "logs" "day.csv.gz" None = false) by reflexivity.
  split; [exact Hg|].
  exact (read_csv_guard_fails (Frame := bytes) "logs" "day.csv.gz" "," None [] stocked Hg).
Defined.

Lemma read_csv_none_only_unknown_witness :
  Some "bz2" <> None /\ Some "bz2" <> Some "gzip".
Proof.
  apply (read_csv_none_only_unknown (Frame := bytes)
           "logs" "day.csv.bz2" "," (Some "bz2") [] stocked).
  reflexivity.
Defined.

Lemma read_csv_missing_key_witness :
  read_csv_s3 (DataFrame := bytes) "logs" "day.csv.gz" "," (Some "gzip") [] stocked
  = (inl NoSuchKey, served (GetObject "logs" "day.csv.gz") stocked).
Proof.
  apply (read_csv_missing_key (Frame := bytes)
           "logs" "day.csv.gz" "," (Some "gzip") [] stocked).
  - reflexivity.
  - now right.
  - reflexivity.
Defined.

Lemma write_csv_frame_witness :
  write_csv_s3 "logs" "day.csv" [x61; x2c; x62] [] stocked
  = (inr tt,
     {| objects := <[("logs", "day.csv") := [x61; x2c; x62]]> (objects stocked);
        requests := requests stocked ++ [PutObject "logs" "day.csv" [x61; x2c; x62]];
        stdout := [] |}).
Proof.
  apply (proj2 (write_csv_frame "logs" "day.csv" [x61; x2c; x62] [] stocked) "a,b").
  reflexivity.
Defined.

Lemma write_then_read_csv_witness :
  exists w1 w2,
    write_csv_s3 "logs" "day.csv" [x61; x2c; x62] [] stocked = (inr tt, w1) /\
    read_csv_s3 "logs" "day.csv" "," None [] w1 = (inr (Some [x61; x2c; x62]), w2).
Proof.
  apply (write_then_read_csv "logs" "day.csv" "," "a,b" [x61; x2c; x62]
           [x61; x2c; x62] [] [] stocked); reflexivity.
Defined.

Lemma write_csv_unreadable_witness :
  exists w1,
    write_csv_s3 "logs" "/day.csv" [x61; x2c; x62] [] stocked = (inr tt, w1) /\
    objects w1 !! ("logs", "/day.csv") = Some [x61; x2c; x62] /\
    read_csv_s3 (DataFrame := bytes) "logs" "/day.csv" "," None [] w1
    = (inl AssertionError, w1).
Proof.
  apply (write_csv_unreadable (Frame := bytes) "logs" "/day.csv" "," "a,b" None
           [x61; x2c; x62] [] [] stocked); reflexivity.
Defined.

Lemma parquet_guard_fails_witness :
  read_parquet_s3 "lake" "events.csv" None false lake = (inl AssertionError, lake) /\
  write_parquet_s3 "lake" "events.csv" (table events_parquet) (Some "snappy") lake
  = (inl AssertionError, lake).
Proof.
  apply (parquet_guard_fails "lake" "events.csv" None false (table events_parquet)
           (Some "snappy") lake).
  reflexivity.
Defined.

Lemma write_parquet_path_witness :
  write_parquet_s3 "lake" "new.parquet" (table events_parquet) (Some "snappy") lake
  = (inr tt, <["lake/new.parquet" := events_parquet]> lake).
Proof.
  rewrite (write_parquet_path "lake" "new.parquet" (table events_parquet)
             (Some "snappy") lake); reflexivity.
Defined.

Lemma parquet_empty_bucket_witness :
  read_parquet_s3 "" "lake/events.parquet" None false lake
  = read_parquet_s3 "lake" "events.parquet" None false lake /\
  write_parquet_s3 "" "lake/events.parquet" (table events_parquet) None lake
  = write_parquet_s3 "lake" "events.parquet" (table events_parquet) None lake.
Proof.
  apply (parquet_empty_bucket "lake" "events.parquet" None false
           (table events_parquet) None lake).
  - discriminate.
  - reflexivity.
Defined.

Lemma read_parquet_missing_columns_witness :
  read_parquet_s3 "lake" "events.parquet" (Some ["user"; "country"]) false lake
  = (inl (ValueError "Missing columns in {path}: {missing_columns}"), lake).
Proof.
  apply (read_parquet_missing_columns "lake" "events.parquet" "country"
           ["user"; "country"] lake lake lake events_parquet); try reflexivity.
  - right. left.
  - intros Hin. repeat (apply elem_of_cons in Hin as [Hin|Hin]; [discriminate|]).
    now apply elem_of_nil in Hin.
Defined.

Lemma read_excel_guard_fails_witness :
  read_excel_s3 "books" "/2018.xlsx" (∅ : gmap string DataFrame)
  = (inl AssertionError, ∅).
Proof.
  apply (read_excel_guard_fails (Frame := DataFrame) "books" "/2018.xlsx" ∅).
  reflexivity.
Defined.

Lemma read_excel_url_witness :
  read_excel_s3 "books" "2018.xlsx" (∅ : gmap string DataFrame)
  = (inl (FileNotFoundError "s3n://books/2018.xlsx"), ∅).
Proof.
  rewrite (proj1 (read_excel_url (Frame := DataFrame)
                    "books" "2018.xlsx" "books" "2019.xlsx" ∅ eq_refl eq_refl)).
  reflexivity.
Defined.
